(** * TodoSecure: the authenticated TODO API of [backend/main.py]

    A shallow embedding of the FastAPI backend: the pydantic request and
    response models, the in-memory tables, the authentication dependency and
    the eleven route handlers, followed by the properties of the session
    model and of the per-user task store. *)

From Stdlib Require Import ZArith NArith List Lia.
From stdpp Require Import base option list sorting gmap strings pretty.

Local Open Scope Z_scope.

(** ** Python values *)

(** A Python [str] is a sequence of Unicode code points; [len] counts code
    points. String literals of the source (error details) stay [string]. *)
Definition str : Type := list N.

(** An ASCII literal as a Python [str]. *)
Definition py (s : string) : str :=
  map (fun a => N.of_nat (Ascii.nat_of_ascii a)) (String.list_ascii_of_string s).

(** [len(s)] *)
Definition len {A} (s : list A) : Z := Z.of_nat (length s).

(** [str.isspace] on one code point (CPython's [_PyUnicode_IsWhitespace]). *)
Definition isspace (c : N) : bool :=
  ((9 <=? c) && (c <=? 13) || (28 <=? c) && (c <=? 32)
   || (c =? 133) || (c =? 160) || (c =? 5760)
   || (8192 <=? c) && (c <=? 8202)
   || (c =? 8232) || (c =? 8233) || (c =? 8239) || (c =? 8287)
   || (c =? 12288))%N.

(** [s.lstrip()] *)
Fixpoint lstrip (s : str) : str :=
  match s with
  | [] => []
  | c :: r => if isspace c then lstrip r else s
  end.

(** [s.rstrip()] *)
Definition rstrip (s : str) : str := rev (lstrip (rev s)).

(** [s.strip()] *)
Definition strip (s : str) : str := rstrip (lstrip s).

(** ** Python dictionaries that are iterated

    [dict] keeps insertion order: assigning to an existing key keeps its
    position, a new key goes to the end, [del] removes the entry. Tables of
    the program that are only indexed are [gmap]s; the two that are iterated
    with [.values()] are [dict]s. *)
Abbreviation dict K V := (list (K * V)).

Section PyDict.
Context {K V : Type} `{EqDecision K}.

(** [d.get(k)]: [Some] exactly when [k in d] *)
Fixpoint dict_get (k : K) (d : dict K V) : option V :=
  match d with
  | [] => None
  | (k', v) :: r => if decide (k = k') then Some v else dict_get k r
  end.

(** [d[k] = v] *)
Fixpoint dict_set (k : K) (v : V) (d : dict K V) : dict K V :=
  match d with
  | [] => [(k, v)]
  | (k', v') :: r =>
      if decide (k = k') then (k, v) :: r else (k', v') :: dict_set k v r
  end.

(** [del d[k]] *)
Fixpoint dict_del (k : K) (d : dict K V) : dict K V :=
  match d with
  | [] => []
  | (k', v') :: r =>
      if decide (k = k') then dict_del k r else (k', v') :: dict_del k r
  end.

(** [list(d.values())] *)
Definition dict_values (d : dict K V) : list V := map snd d.

(** [list(d.keys())] *)
Definition dict_keys (d : dict K V) : list K := map fst d.
End PyDict.

(** ** Request bodies

    A key of a JSON body is absent, [null], or carries a value of the type the
    model declares for it. *)
Inductive field (A : Type) : Type :=
  | Unset
  | Null
  | Val (a : A).
Arguments Unset {A}.
Arguments Null {A}.
Arguments Val {A} a.

(** Body of [POST /register] and [POST /login]. *)
Record AuthJson := {
  j_username : field str;
  j_email : field str;
  j_password : field str;
}.

(** Body of [POST /todos], [PUT /todos/{id}] and [PATCH /todos/{id}]. *)
Record TodoJson := {
  j_title : field str;
  j_description : field str;
  j_due_date : field str;
  j_priority : field Z;
  j_completed : field bool;
}.

(** ** Pydantic models *)

(** The outcome of validating one field: the name of the offending field, or
    the validated value. *)
Definition checked (A : Type) : Type := string + A.

Definition errs {A} (r : checked A) : list string :=
  match r with
  | inl e => [e]
  | inr _ => []
  end.

(** A required field: absent and [null] are both rejected. *)
Definition required {A} (name : string) (ok : A -> bool) (f : field A) : checked A :=
  match f with
  | Val a => if ok a then inr a else inl name
  | _ => inl name
  end.

(** An [Optional[...] = None] field. *)
Definition optional {A} (name : string) (ok : A -> bool) (f : field A)
  : checked (option A) :=
  match f with
  | Val a => if ok a then inr (Some a) else inl name
  | _ => inr None
  end.

(** A field with a default that is not [Optional]: [null] is rejected. *)
Definition defaulted {A} (name : string) (dflt : A) (ok : A -> bool) (f : field A)
  : checked A :=
  match f with
  | Unset => inr dflt
  | Null => inl name
  | Val a => if ok a then inr a else inl name
  end.

(** The [str] type of a field. A Python string that holds a lone surrogate
    (U+D800 to U+DFFF) has no UTF-8 form and is refused by the validator
    before any constraint of the field is looked at. *)
Definition is_unicode (s : str) : bool :=
  forallb (fun c => negb ((55296 <=? c) && (c <=? 57343))%N) s.

(** A field declared [str]: the type is checked first, then [r], the outcome
    of the constraints and validators of the field, stands. *)
Definition as_str {A} (name : string) (f : field str) (r : checked A) : checked A :=
  match f with
  | Val v => if is_unicode v then r else inl name
  | _ => r
  end.

Definition min_length {A} (n : Z) (s : list A) : bool := n <=? len s.
Definition max_length {A} (n : Z) (s : list A) : bool := len s <=? n.
(** [Field(ge=n)] and [Field(le=n)] *)
Definition at_least (n v : Z) : bool := n <=? v.
Definition at_most (n v : Z) : bool := v <=? n.
Definition any_value {A} (_ : A) : bool := true.

(** [class UserRegister] *)
Record UserRegister := {
  ur_username : str;
  ur_email : str;
  ur_password : str;
}.

(** [class UserLogin] *)
Record UserLogin := {
  ul_username : str;
  ul_password : str;
}.

(** [class TodoBase], and [TodoCreate], which adds nothing. *)
Record TodoBase := {
  tb_title : str;
  tb_description : option str;
  tb_due_date : option str;
  tb_priority : Z;
  tb_completed : bool;
}.

Abbreviation TodoCreate := TodoBase.

(** [class TodoUpdate]: every field defaults to [None]; the model remembers
    which fields the body set ([model_fields_set]), so a validated field is
    again unset, set to [None], or set to a value. *)
Record TodoUpdate := {
  tu_title : field str;
  tu_description : field str;
  tu_due_date : field str;
  tu_priority : field Z;
  tu_completed : field bool;
}.

(** The stored task dictionary, which is also what [TodoResponse] describes. *)
Record Todo := {
  t_id : Z;
  t_user_id : Z;
  t_title : str;
  t_description : option str;
  t_due_date : option str;
  t_priority : Z;
  t_completed : bool;
  t_created_at : str;
}.

(** [user_data] of [register]. *)
Record User := {
  u_id : Z;
  u_username : str;
  u_email : str;
  u_password : str;
  u_created_at : str;
}.

(** [validate_title]: the field validator of [TodoBase], run after the length
    constraints of [Field]. *)
Definition validate_title (v : str) : checked str :=
  let trimmed := strip v in
  match trimmed with
  | [] => inl "title"%string
  | _ => inr trimmed
  end.

(** [title: str = Field(..., min_length=1, max_length=100)] with its
    validator. *)
Definition check_title (f : field str) : checked str :=
  match required "title" (fun v => min_length 1 v && max_length 100 v) f with
  | inl e => inl e
  | inr v => validate_title v
  end.

Definition validate_TodoBase (j : TodoJson) : list string + TodoBase :=
  let title := as_str "title" (j_title j) (check_title (j_title j)) in
  let description :=
    as_str "description" (j_description j)
      (optional "description" (max_length 500) (j_description j)) in
  let due_date :=
    as_str "due_date" (j_due_date j)
      (optional "due_date" any_value (j_due_date j)) in
  let priority :=
    defaulted "priority" 3 (fun p => at_least 1 p && at_most 5 p) (j_priority j) in
  let completed := defaulted "completed" false any_value (j_completed j) in
  match title, description, due_date, priority, completed with
  | inr t, inr d, inr dd, inr p, inr c =>
      inr {| tb_title := t; tb_description := d; tb_due_date := dd;
             tb_priority := p; tb_completed := c |}
  | _, _, _, _, _ =>
      inl (errs title ++ errs description ++ errs due_date
           ++ errs priority ++ errs completed)
  end.

(** An [Optional] field of [TodoUpdate], keeping whether the body set it. *)
Definition patch_field {A} (name : string) (ok : A -> bool) (f : field A)
  : checked (field A) :=
  match f with
  | Val a => if ok a then inr (Val a) else inl name
  | Null => inr Null
  | Unset => inr Unset
  end.

Definition validate_TodoUpdate (j : TodoJson) : list string + TodoUpdate :=
  let title :=
    as_str "title" (j_title j)
      (patch_field "title" (fun v => min_length 1 v && max_length 100 v)
         (j_title j)) in
  let description :=
    as_str "description" (j_description j)
      (patch_field "description" (max_length 500) (j_description j)) in
  let due_date :=
    as_str "due_date" (j_due_date j)
      (patch_field "due_date" any_value (j_due_date j)) in
  let priority := patch_field "priority" (fun p => at_least 1 p && at_most 5 p) (j_priority j) in
  let completed := patch_field "completed" any_value (j_completed j) in
  match title, description, due_date, priority, completed with
  | inr t, inr d, inr dd, inr p, inr c =>
      inr {| tu_title := t; tu_description := d; tu_due_date := dd;
             tu_priority := p; tu_completed := c |}
  | _, _, _, _, _ =>
      inl (errs title ++ errs description ++ errs due_date
           ++ errs priority ++ errs completed)
  end.

Definition validate_UserLogin (j : AuthJson) : list string + UserLogin :=
  let username :=
    as_str "username" (j_username j)
      (required "username" any_value (j_username j)) in
  let password :=
    as_str "password" (j_password j)
      (required "password" any_value (j_password j)) in
  match username, password with
  | inr u, inr p => inr {| ul_username := u; ul_password := p |}
  | _, _ => inl (errs username ++ errs password)
  end.

(** [class TodoResponse(TodoBase)]: the response model the task routes
    declare. The stored dictionary is validated against it before it is sent;
    [id], [user_id] and [created_at] have the declared types already. *)
Definition validate_TodoResponse (t : Todo) : list string + Todo :=
  let title := check_title (Val (t_title t)) in
  let description :=
    match t_description t with
    | Some d => optional "description" (max_length 500) (Val d)
    | None => inr None
    end in
  let priority := required "priority" (fun p => at_least 1 p && at_most 5 p) (Val (t_priority t)) in
  match title, description, priority with
  | inr ti, inr d, inr p =>
      inr {| t_id := t_id t; t_user_id := t_user_id t; t_title := ti;
             t_description := d; t_due_date := t_due_date t; t_priority := p;
             t_completed := t_completed t; t_created_at := t_created_at t |}
  | _, _, _ => inl (errs title ++ errs description ++ errs priority)
  end.

(** ** In-memory storage *)

Record State := {
  user_todos : gmap Z (dict Z Todo);   (* {user_id: {todo_id: todo_data}} *)
  users_db : dict str User;            (* {username: user_data} *)
  sessions : gmap str Z;               (* {token: user_id} *)
  current_user_id : Z;
  current_todo_id : gmap Z Z;          (* {user_id: next_todo_id} *)
}.

(** The tables as the module leaves them at import time. *)
Definition initial_state : State :=
  {| user_todos := ∅; users_db := []; sessions := ∅;
     current_user_id := 1; current_todo_id := ∅ |}.

Definition with_user_todos (f : gmap Z (dict Z Todo) -> gmap Z (dict Z Todo))
    (st : State) : State :=
  {| user_todos := f (user_todos st); users_db := users_db st;
     sessions := sessions st; current_user_id := current_user_id st;
     current_todo_id := current_todo_id st |}.

Definition with_users_db (f : dict str User -> dict str User) (st : State) : State :=
  {| user_todos := user_todos st; users_db := f (users_db st);
     sessions := sessions st; current_user_id := current_user_id st;
     current_todo_id := current_todo_id st |}.

Definition with_sessions (f : gmap str Z -> gmap str Z) (st : State) : State :=
  {| user_todos := user_todos st; users_db := users_db st;
     sessions := f (sessions st); current_user_id := current_user_id st;
     current_todo_id := current_todo_id st |}.

Definition with_current_user_id (f : Z -> Z) (st : State) : State :=
  {| user_todos := user_todos st; users_db := users_db st;
     sessions := sessions st; current_user_id := f (current_user_id st);
     current_todo_id := current_todo_id st |}.

Definition with_current_todo_id (f : gmap Z Z -> gmap Z Z) (st : State) : State :=
  {| user_todos := user_todos st; users_db := users_db st;
     sessions := sessions st; current_user_id := current_user_id st;
     current_todo_id := f (current_todo_id st) |}.

(** ** Errors and the handler monad *)

Inductive Error : Type :=
  | HTTPException (status_code : Z) (detail : string)
  | RequestValidationError (fields : list string)    (* answered with 422 *)
  | ResponseValidationError (fields : list string)   (* answered with 500 *)
  | KeyError.                                        (* uncaught, 500 *)

(** A handler runs on the tables and either returns or raises; what it wrote
    before raising stays written. *)
Definition M (A : Type) : Type := State -> (Error + A) * State.

#[global] Instance M_ret : MRet M := fun A a st => (inr a, st).

#[global] Instance M_bind : MBind M := fun A B k m st =>
  match m st with
  | (inr a, st') => k a st'
  | (inl e, st') => (inl e, st')
  end.

Definition raise {A} (e : Error) : M A := fun st => (inl e, st).
Definition gets {A} (f : State -> A) : M A := fun st => (inr (f st), st).
Definition modify (f : State -> State) : M unit := fun st => (inr tt, f st).

(** Request validation: a failing body is answered with 422. *)
Definition parse {A} (r : list string + A) : M A :=
  match r with
  | inl fields => raise (RequestValidationError fields)
  | inr a => mret a
  end.

(** Response validation: a return value the response model rejects is
    answered with 500. *)
Definition serialize {A} (r : list string + A) : M A :=
  match r with
  | inl fields => raise (ResponseValidationError fields)
  | inr a => mret a
  end.

Definition HTTP_400_BAD_REQUEST : Z := 400.
Definition HTTP_401_UNAUTHORIZED : Z := 401.
Definition HTTP_404_NOT_FOUND : Z := 404.

(** ** Authentication dependency *)

(** The dictionary [get_current_user] returns. *)
Record CurrentUser := {
  cu_id : Z;
  cu_username : option str;
}.

Definition get_current_user (credentials : str) : M CurrentUser :=
  sess ← gets sessions;
  match sess !! credentials with
  | None => raise (HTTPException HTTP_401_UNAUTHORIZED "Invalid or expired token")
  | Some user_id =>
      users ← gets users_db;
      if bool_decide (user_id ∈ (u_id <$> dict_values users)) then
        mret {| cu_id := user_id;
                cu_username :=
                  head (u_username <$>
                          filter (fun u => u_id u = user_id) (dict_values users)) |}
      else raise (HTTPException HTTP_401_UNAUTHORIZED "User not found")
  end.

(** [get_user_todos]: creates the user's scope and counter when missing and
    returns the scope (by reference) with the next id. *)
Definition get_user_todos (user_id : Z) : M (dict Z Todo * Z) :=
  ut ← gets user_todos;
  (if bool_decide (ut !! user_id = None)
   then modify (with_user_todos <[user_id := []]>) else mret tt);;
  ct ← gets current_todo_id;
  (if bool_decide (ct !! user_id = None)
   then modify (with_current_todo_id <[user_id := 1]>) else mret tt);;
  ut ← gets user_todos;
  ct ← gets current_todo_id;
  mret (ut !!! user_id, ct !!! user_id).

(** A write through the reference [get_user_todos] returned. *)
Definition write_todos (user_id : Z) (f : dict Z Todo -> dict Z Todo) : M unit :=
  modify (with_user_todos (alter f user_id)).

Definition todo_not_found {A} (todo_id : Z) : M A :=
  raise (HTTPException HTTP_404_NOT_FOUND
           ("TODO with id " +:+ pretty todo_id +:+ " not found")).

(** ** Task handlers

    Each handler receives the validated body and the dictionary the
    authentication dependency returned. [now] stands for
    [datetime.now(timezone.utc).isoformat()] at the time of the call. *)

Definition create_todo (todo : TodoCreate) (current_user : CurrentUser)
    (now : str) : M Todo :=
  let user_id := cu_id current_user in
  '(todos, next_id) ← get_user_todos user_id;
  let new_todo :=
    {| t_id := next_id; t_user_id := user_id; t_title := tb_title todo;
       t_description := tb_description todo; t_due_date := tb_due_date todo;
       t_priority := tb_priority todo; t_completed := tb_completed todo;
       t_created_at := now |} in
  write_todos user_id (dict_set next_id new_todo);;
  modify (with_current_todo_id <[user_id := next_id + 1]>);;
  mret new_todo.

Definition list_todos (current_user : CurrentUser) : M (list Todo) :=
  let user_id := cu_id current_user in
  '(todos, _) ← get_user_todos user_id;
  mret (dict_values todos).

Definition get_todo (todo_id : Z) (current_user : CurrentUser) : M Todo :=
  let user_id := cu_id current_user in
  '(todos, _) ← get_user_todos user_id;
  match dict_get todo_id todos with
  | None => todo_not_found todo_id
  | Some todo => mret todo
  end.

Definition replace_todo (todo_id : Z) (todo : TodoCreate)
    (current_user : CurrentUser) : M Todo :=
  let user_id := cu_id current_user in
  '(todos, _) ← get_user_todos user_id;
  match dict_get todo_id todos with
  | None => todo_not_found todo_id
  | Some old =>
      let updated_todo :=
        {| t_id := todo_id; t_user_id := user_id; t_title := tb_title todo;
           t_description := tb_description todo; t_due_date := tb_due_date todo;
           t_priority := tb_priority todo; t_completed := tb_completed todo;
           t_created_at := t_created_at old |} in
      write_todos user_id (dict_set todo_id updated_todo);;
      mret updated_todo
  end.

(** One entry of [update_data]: a key of the body with the value it was
    given, [None] for [null]. *)
Inductive Item : Type :=
  | ITitle (value : option str)
  | IDescription (value : option str)
  | IDueDate (value : option str)
  | IPriority (value : option Z)
  | ICompleted (value : option bool).

Definition dump {A} (key : option A -> Item) (f : field A) : list Item :=
  match f with
  | Unset => []
  | Null => [key None]
  | Val a => [key (Some a)]
  end.

(** [todo_update.model_dump(exclude_unset=True)] *)
Definition model_dump_exclude_unset (u : TodoUpdate) : list Item :=
  dump ITitle (tu_title u) ++ dump IDescription (tu_description u)
  ++ dump IDueDate (tu_due_date u) ++ dump IPriority (tu_priority u)
  ++ dump ICompleted (tu_completed u).

(** The body of the loop: [if value is not None: current_todo[field] = value] *)
Definition assign (current_todo : Todo) (it : Item) : Todo :=
  match it with
  | ITitle (Some v) =>
      {| t_id := t_id current_todo; t_user_id := t_user_id current_todo;
         t_title := v; t_description := t_description current_todo;
         t_due_date := t_due_date current_todo;
         t_priority := t_priority current_todo;
         t_completed := t_completed current_todo;
         t_created_at := t_created_at current_todo |}
  | IDescription (Some v) =>
      {| t_id := t_id current_todo; t_user_id := t_user_id current_todo;
         t_title := t_title current_todo; t_description := Some v;
         t_due_date := t_due_date current_todo;
         t_priority := t_priority current_todo;
         t_completed := t_completed current_todo;
         t_created_at := t_created_at current_todo |}
  | IDueDate (Some v) =>
      {| t_id := t_id current_todo; t_user_id := t_user_id current_todo;
         t_title := t_title current_todo;
         t_description := t_description current_todo; t_due_date := Some v;
         t_priority := t_priority current_todo;
         t_completed := t_completed current_todo;
         t_created_at := t_created_at current_todo |}
  | IPriority (Some v) =>
      {| t_id := t_id current_todo; t_user_id := t_user_id current_todo;
         t_title := t_title current_todo;
         t_description := t_description current_todo;
         t_due_date := t_due_date current_todo; t_priority := v;
         t_completed := t_completed current_todo;
         t_created_at := t_created_at current_todo |}
  | ICompleted (Some v) =>
      {| t_id := t_id current_todo; t_user_id := t_user_id current_todo;
         t_title := t_title current_todo;
         t_description := t_description current_todo;
         t_due_date := t_due_date current_todo;
         t_priority := t_priority current_todo; t_completed := v;
         t_created_at := t_created_at current_todo |}
  | _ => current_todo
  end.

Definition update_todo (todo_id : Z) (todo_update : TodoUpdate)
    (current_user : CurrentUser) : M Todo :=
  let user_id := cu_id current_user in
  '(todos, _) ← get_user_todos user_id;
  match dict_get todo_id todos with
  | None => todo_not_found todo_id
  | Some stored =>
      let update_data := model_dump_exclude_unset todo_update in
      let current_todo := fold_left assign update_data stored in
      write_todos user_id (dict_set todo_id current_todo);;
      mret current_todo
  end.

Definition toggle (t : Todo) : Todo :=
  {| t_id := t_id t; t_user_id := t_user_id t; t_title := t_title t;
     t_description := t_description t; t_due_date := t_due_date t;
     t_priority := t_priority t; t_completed := negb (t_completed t);
     t_created_at := t_created_at t |}.

Definition toggle_todo_status (todo_id : Z) (current_user : CurrentUser) : M Todo :=
  let user_id := cu_id current_user in
  '(todos, _) ← get_user_todos user_id;
  match dict_get todo_id todos with
  | None => todo_not_found todo_id
  | Some stored =>
      write_todos user_id (dict_set todo_id (toggle stored));;
      mret (toggle stored)
  end.

Definition delete_todo (todo_id : Z) (current_user : CurrentUser) : M unit :=
  let user_id := cu_id current_user in
  '(todos, _) ← get_user_todos user_id;
  match dict_get todo_id todos with
  | None => todo_not_found todo_id
  | Some _ => write_todos user_id (dict_del todo_id)
  end.

(** [logout] *)
Definition logout (credentials : str) : M string :=
  sess ← gets sessions;
  (if bool_decide (is_Some (sess !! credentials))
   then modify (with_sessions (delete credentials)) else mret tt);;
  mret "Logged out successfully"%string.

(** [get_current_user_info] *)
Definition get_current_user_info (current_user : CurrentUser) : M User :=
  users ← gets users_db;
  match cu_username current_user with
  | None => raise KeyError
  | Some username =>
      match dict_get username users with
      | None => raise KeyError
      | Some user_data => mret user_data
      end
  end.

(** ** Identity handlers and the application

    Two library functions stay abstract: the SHA-256 hex digest of the UTF-8
    encoding of a string, and the [EmailStr] validator, which returns the
    normalised address or rejects the input. *)
Section Backend.
Variable sha256_hexdigest : str -> str.
Variable validate_email : str -> option str.

Definition hash_password (password : str) : str := sha256_hexdigest password.

Definition check_email (f : field str) : checked str :=
  match f with
  | Val e =>
      match validate_email e with
      | Some e' => inr e'
      | None => inl "email"%string
      end
  | _ => inl "email"%string
  end.

Definition validate_UserRegister (j : AuthJson) : list string + UserRegister :=
  let username :=
    as_str "username" (j_username j)
      (required "username" (fun v => min_length 3 v && max_length 50 v)
         (j_username j)) in
  let email := as_str "email" (j_email j) (check_email (j_email j)) in
  let password :=
    as_str "password" (j_password j)
      (required "password" (min_length 6) (j_password j)) in
  match username, email, password with
  | inr u, inr e, inr p =>
      inr {| ur_username := u; ur_email := e; ur_password := p |}
  | _, _, _ => inl (errs username ++ errs email ++ errs password)
  end.

(** [register]; [token] stands for [secrets.token_hex(32)]. The returned
    string is the [access_token]. *)
Definition register (user : UserRegister) (now token : str) : M str :=
  users ← gets users_db;
  match dict_get (ur_username user) users with
  | Some _ =>
      raise (HTTPException HTTP_400_BAD_REQUEST "Username already exists")
  | None =>
      uid ← gets current_user_id;
      let user_data :=
        {| u_id := uid; u_username := ur_username user;
           u_email := ur_email user;
           u_password := hash_password (ur_password user);
           u_created_at := now |} in
      modify (with_users_db (dict_set (ur_username user) user_data));;
      uid ← gets current_user_id;
      modify (with_sessions <[token := uid]>);;
      uid ← gets current_user_id;
      modify (with_user_todos <[uid := []]>);;
      modify (with_current_todo_id <[uid := 1]>);;
      modify (with_current_user_id (fun n => n + 1));;
      mret token
  end.

(** [login] *)
Definition login (user : UserLogin) (token : str) : M str :=
  users ← gets users_db;
  match dict_get (ul_username user) users with
  | None =>
      raise (HTTPException HTTP_401_UNAUTHORIZED "Invalid username or password")
  | Some stored_user =>
      if bool_decide (u_password stored_user ≠ hash_password (ul_password user))
      then
        raise (HTTPException HTTP_401_UNAUTHORIZED "Invalid username or password")
      else
        modify (with_sessions <[token := u_id stored_user]>);;
        mret token
  end.

(** *** The task store as the specification names its operations

    An operation is the validation of its body followed by the handler,
    both under an identity that was resolved beforehand. *)
Inductive Call : Type :=
  | Create (body : TodoJson) (now : str)
  | List
  | Get (todo_id : Z)
  | Replace (todo_id : Z) (body : TodoJson)
  | PartialUpdate (todo_id : Z) (patch : TodoJson)
  | Toggle (todo_id : Z)
  | Delete (todo_id : Z).

Inductive Outcome : Type :=
  | OTodo (t : Todo)
  | OTodos (ts : list Todo)
  | ODone.

Definition task_store (current_user : CurrentUser) (c : Call) : M Outcome :=
  match c with
  | Create body now =>
      todo ← parse (validate_TodoBase body);
      t ← create_todo todo current_user now;
      mret (OTodo t)
  | List =>
      ts ← list_todos current_user;
      mret (OTodos ts)
  | Get todo_id =>
      t ← get_todo todo_id current_user;
      mret (OTodo t)
  | Replace todo_id body =>
      todo ← parse (validate_TodoBase body);
      t ← replace_todo todo_id todo current_user;
      mret (OTodo t)
  | PartialUpdate todo_id patch =>
      todo_update ← parse (validate_TodoUpdate patch);
      t ← update_todo todo_id todo_update current_user;
      mret (OTodo t)
  | Toggle todo_id =>
      t ← toggle_todo_status todo_id current_user;
      mret (OTodo t)
  | Delete todo_id =>
      delete_todo todo_id current_user;;
      mret ODone
  end.

(** *** Routes

    A request of a protected route, and of [POST /logout], is one that has
    passed the [HTTPBearer] dependency [security]: [credentials] is the
    string that dependency took from the [Authorization: Bearer ...] header,
    and it is not empty. A request without such a header is answered by
    that dependency before [get_current_user] or [logout] runs and is not a
    request of this type. *)

Inductive Request : Type :=
  | GET_root
  | POST_register (body : AuthJson)
  | POST_login (body : AuthJson)
  | POST_logout (credentials : str)
  | GET_me (credentials : str)
  | POST_todos (credentials : str) (body : TodoJson)
  | GET_todos (credentials : str)
  | GET_todo (credentials : str) (todo_id : Z)
  | PUT_todo (credentials : str) (todo_id : Z) (body : TodoJson)
  | PATCH_todo (credentials : str) (todo_id : Z) (body : TodoJson)
  | PATCH_toggle (credentials : str) (todo_id : Z)
  | DELETE_todo (credentials : str) (todo_id : Z).

Inductive Response : Type :=
  | Healthy
  | Token (access_token : str) (token_type : string)
  | Message (message : string)
  | UserInfo (id : Z) (username email created_at : str)
  | TodoResponse (t : Todo)
  | TodoResponses (ts : list Todo)
  | NoContent.

(** What the clock and the token generator yield while a request runs. *)
Record Env := {
  now_isoformat : str;
  token_hex : str;
}.

(** [response_model=List[TodoResponse]] *)
Fixpoint validate_TodoResponses (ts : list Todo) : list string + list Todo :=
  match ts with
  | [] => inr []
  | t :: r =>
      match validate_TodoResponse t, validate_TodoResponses r with
      | inr t', inr r' => inr (t' :: r')
      | inl e, inr _ => inl e
      | inr _, inl e => inl e
      | inl e, inl e' => inl (e ++ e')
      end
  end.

Definition respond (o : Outcome) : M Response :=
  match o with
  | OTodo t =>
      r ← serialize (validate_TodoResponse t);
      mret (TodoResponse r)
  | OTodos ts =>
      rs ← serialize (validate_TodoResponses ts);
      mret (TodoResponses rs)
  | ODone => mret NoContent
  end.

(** A task route: the authentication dependency, then the operation, then
    the response model. *)
Definition task_route (credentials : str) (c : Call) : M Response :=
  current_user ← get_current_user credentials;
  o ← task_store current_user c;
  respond o.

Definition app (env : Env) (req : Request) : M Response :=
  match req with
  | GET_root => mret Healthy
  | POST_register body =>
      user ← parse (validate_UserRegister body);
      token ← register user (now_isoformat env) (token_hex env);
      mret (Token token "bearer")
  | POST_login body =>
      user ← parse (validate_UserLogin body);
      token ← login user (token_hex env);
      mret (Token token "bearer")
  | POST_logout credentials =>
      message ← logout credentials;
      mret (Message message)
  | GET_me credentials =>
      current_user ← get_current_user credentials;
      user_data ← get_current_user_info current_user;
      mret (UserInfo (u_id user_data) (u_username user_data)
              (u_email user_data) (u_created_at user_data))
  | POST_todos credentials body =>
      task_route credentials (Create body (now_isoformat env))
  | GET_todos credentials => task_route credentials List
  | GET_todo credentials todo_id => task_route credentials (Get todo_id)
  | PUT_todo credentials todo_id body =>
      task_route credentials (Replace todo_id body)
  | PATCH_todo credentials todo_id body =>
      task_route credentials (PartialUpdate todo_id body)
  | PATCH_toggle credentials todo_id => task_route credentials (Toggle todo_id)
  | DELETE_todo credentials todo_id => task_route credentials (Delete todo_id)
  end.

(** A run of the server: the requests are served one after the other. *)
Fixpoint serve (trace : list (Env * Request)) (st : State)
  : list (Error + Response) * State :=
  match trace with
  | [] => ([], st)
  | (env, req) :: rest =>
      let '(r, st1) := app env req st in
      let '(rs, st2) := serve rest st1 in
      (r :: rs, st2)
  end.
End Backend.

(** ** Observations on the tables *)

(** The tasks of a user, as [get_user_todos] hands them out. *)
Definition scope (st : State) (user_id : Z) : dict Z Todo :=
  default [] (user_todos st !! user_id).

(** The id the next [create_todo] of a user assigns. *)
Definition next_id (st : State) (user_id : Z) : Z :=
  default 1 (current_todo_id st !! user_id).

(** The tables after [get_user_todos] made sure the user has a scope and a
    counter. *)
Definition ensure (user_id : Z) (st : State) : State :=
  {| user_todos :=
       match user_todos st !! user_id with
       | Some _ => user_todos st
       | None => <[user_id := []]> (user_todos st)
       end;
     users_db := users_db st;
     sessions := sessions st;
     current_user_id := current_user_id st;
     current_todo_id :=
       match current_todo_id st !! user_id with
       | Some _ => current_todo_id st
       | None => <[user_id := 1]> (current_todo_id st)
       end |}.

(** The tables after a handler fetched the user's scope and wrote [f] through
    it. *)
Definition commit (user_id : Z) (f : dict Z Todo -> dict Z Todo) (st : State)
  : State :=
  with_user_todos (alter f user_id) (ensure user_id st).

(** The answer for a task id the scope does not hold. *)
Definition NotFound (todo_id : Z) : Error :=
  HTTPException 404 ("TODO with id " +:+ pretty todo_id +:+ " not found").

(** The record [create_todo] builds. *)
Definition new_todo (todo : TodoCreate) (user_id next_id : Z) (now : str) : Todo :=
  {| t_id := next_id; t_user_id := user_id; t_title := tb_title todo;
     t_description := tb_description todo; t_due_date := tb_due_date todo;
     t_priority := tb_priority todo; t_completed := tb_completed todo;
     t_created_at := now |}.

(** The record [replace_todo] builds over the stored record [old]. *)
Definition updated_todo (todo : TodoCreate) (user_id todo_id : Z) (old : Todo)
  : Todo :=
  {| t_id := todo_id; t_user_id := user_id; t_title := tb_title todo;
     t_description := tb_description todo; t_due_date := tb_due_date todo;
     t_priority := tb_priority todo; t_completed := tb_completed todo;
     t_created_at := t_created_at old |}.

(** The partial update as the specification words it: a field is applied
    when the patch marks it present with a value; a field that is absent, or
    present with [null], keeps the stored value. *)
Definition patched_as_specified (patch : TodoJson) (t : Todo) : Todo :=
  {| t_id := t_id t;
     t_user_id := t_user_id t;
     t_title := match j_title patch with Val v => v | _ => t_title t end;
     t_description :=
       match j_description patch with Val v => Some v | _ => t_description t end;
     t_due_date :=
       match j_due_date patch with Val v => Some v | _ => t_due_date t end;
     t_priority := match j_priority patch with Val v => v | _ => t_priority t end;
     t_completed :=
       match j_completed patch with Val v => v | _ => t_completed t end;
     t_created_at := t_created_at t |}.

(** The creation-time rules, read on a stored task: a trimmed, non-empty
    title of at most 100 characters, a description of at most 500, a priority
    from 1 to 5. *)
Definition valid_task (t : Todo) : Prop :=
  1 <= len (t_title t) <= 100
  /\ strip (t_title t) = t_title t
  /\ (forall d, t_description t = Some d -> len d <= 500)
  /\ 1 <= t_priority t <= 5.

(** The tables with everything a user holds in the task store removed. *)
Definition forget (user_id : Z) (st : State) : State :=
  with_user_todos (delete user_id) (with_current_todo_id (delete user_id) st).

(** Every stored task carries the id of the user whose scope holds it. *)
Definition owned (st : State) : Prop :=
  map_Forall (fun w d => Forall (fun t => t_user_id t = w) (dict_values d))
    (user_todos st).

#[global] Instance owned_dec (st : State) : Decision (owned st).
Proof. unfold owned. apply _. Defined.

(** The tasks an answer of the task store hands out. *)
Definition returned (t : Todo) (o : Outcome) : Prop :=
  match o with
  | OTodo t' => t' = t
  | OTodos ts => t ∈ ts
  | ODone => False
  end.

(** The task id an operation addresses. *)
Definition target (c : Call) : option Z :=
  match c with
  | Get id | Replace id _ | PartialUpdate id _ | Toggle id | Delete id => Some id
  | Create _ _ | List => None
  end.

(** The body of the operation, if it has one, passes validation. *)
Definition body_accepted (c : Call) : Prop :=
  match c with
  | Create body _ | Replace _ body =>
      match validate_TodoBase body with inr _ => True | inl _ => False end
  | PartialUpdate _ patch =>
      match validate_TodoUpdate patch with inr _ => True | inl _ => False end
  | List | Get _ | Toggle _ | Delete _ => True
  end.

(** The invariant of the tables: sessions and user records refer to user ids
    already handed out, no scope or counter exists for an id not handed out
    yet, every task id in a scope lies below the scope's counter, and every
    task sits in its owner's scope. *)
Definition consistent (st : State) : Prop :=
  (forall tok uid, sessions st !! tok = Some uid -> uid < current_user_id st)
  /\ Forall (fun u => u_id u < current_user_id st) (dict_values (users_db st))
  /\ (forall u, current_user_id st <= u ->
        user_todos st !! u = None /\ current_todo_id st !! u = None)
  /\ (forall u id, is_Some (dict_get id (scope st u)) -> id < next_id st u)
  /\ owned st.



(** The operations that rewrite a stored task. *)
Definition is_update (c : Call) : Prop :=
  match c with
  | Replace _ _ | PartialUpdate _ _ | Toggle _ => True
  | Create _ _ | List | Get _ | Delete _ => False
  end.

(** What a run may do to the task [id] of user [u] that was created at [ca]:
    keep it with that creation time, or delete it, after which the id stays
    below the user's counter and is not handed out again. *)
Definition kept (u id : Z) (ca : str) (st : State) : Prop :=
  match dict_get id (scope st u) with
  | Some t => t_created_at t = ca
  | None => id < next_id st u /\ u < current_user_id st
  end.

(** ** Steps of the server and what they preserve *)

(** The tables after [register] stored [user_data] and minted [token]. *)
Definition registered (user_data : User) (token : str) (st : State) : State :=
  {| user_todos := <[current_user_id st := []]> (user_todos st);
     users_db := dict_set (u_username user_data) user_data (users_db st);
     sessions := <[token := current_user_id st]> (sessions st);
     current_user_id := current_user_id st + 1;
     current_todo_id := <[current_user_id st := 1]> (current_todo_id st) |}.

(** What serving one request can do to the tables: nothing, a registration
    under a free username, a login as a stored user, a logout, or one
    operation of the task store under the identity of a session. *)
Inductive step : State -> State -> Prop :=
  | step_read st : step st st
  | step_register st user_data token :
      dict_get (u_username user_data) (users_db st) = None ->
      u_id user_data = current_user_id st ->
      step st (registered user_data token st)
  | step_login st username stored_user token :
      dict_get username (users_db st) = Some stored_user ->
      step st (with_sessions <[token := u_id stored_user]> st)
  | step_logout st token :
      step st (with_sessions (delete token) st)
  | step_task st st' cred cu c ro :
      sessions st !! cred = Some (cu_id cu) ->
      task_store cu c st = (ro, st') ->
      step st st'.

(** The bounds every write path of the task store checks. *)
Definition bounded (t : Todo) : Prop :=
  1 <= len (t_title t) <= 100
  /\ (forall d, t_description t = Some d -> len d <= 500)
  /\ 1 <= t_priority t <= 5.

(** A scope of user [u] whose counter stands at [next]: the keys are in
    strictly increasing order, lie from 1 up to the counter, and each holds a
    bounded task that carries the key as its id and [u] as its owner. *)
Definition scope_ok (u next : Z) (d : dict Z Todo) : Prop :=
  StronglySorted Z.lt (dict_keys d)
  /\ Forall (fun kt => 1 <= kt.1 < next /\ t_id kt.2 = kt.1
                       /\ t_user_id kt.2 = u /\ bounded kt.2) d.

Definition scopes_ok (st : State) : Prop :=
  forall u, 1 <= next_id st u /\ scope_ok u (next_id st u) (scope st u).

(** The identity tables: usernames are the keys of their records and are
    distinct, user ids are 1, 2, ... in order of registration, every session
    belongs to a registered user, and every registered user has a scope and
    a counter. *)
Definition registry_ok (st : State) : Prop :=
  NoDup (dict_keys (users_db st))
  /\ Forall (fun ku => u_username ku.2 = ku.1) (users_db st)
  /\ u_id <$> dict_values (users_db st) = seqZ 1 (current_user_id st - 1)
  /\ 1 <= current_user_id st
  /\ (forall tok uid, sessions st !! tok = Some uid ->
        1 <= uid < current_user_id st)
  /\ (forall uid, 1 <= uid < current_user_id st ->
        is_Some (user_todos st !! uid) /\ is_Some (current_todo_id st !! uid)).

(** The requests that need a session, with the credentials they carry. *)
Definition protected (req : Request) : option str :=
  match req with
  | GET_me cred | POST_todos cred _ | GET_todos cred | GET_todo cred _
  | PUT_todo cred _ _ | PATCH_todo cred _ _ | PATCH_toggle cred _
  | DELETE_todo cred _ => Some cred
  | GET_root | POST_register _ | POST_login _ | POST_logout _ => None
  end.

(** The requests with method GET. *)
Definition is_get (req : Request) : Prop :=
  match req with
  | GET_root | GET_me _ | GET_todos _ | GET_todo _ _ => True
  | _ => False
  end.

(** ** Sample data for the examples *)

(** Stand-ins for the two library functions, good enough to run examples. *)
Definition sample_digest (s : str) : str := rev s.
Definition sample_email (s : str) : option str := Some s.

Definition sample_env (now token : string) : Env :=
  {| now_isoformat := py now; token_hex := py token |}.

Definition sample_auth (username password : string) : AuthJson :=
  {| j_username := Val (py username); j_email := Val (py "user@example.com");
     j_password := Val (py password) |}.

Definition sample_body (title : string) (priority : field Z) : TodoJson :=
  {| j_title := Val (py title); j_description := Unset; j_due_date := Unset;
     j_priority := priority; j_completed := Unset |}.

Definition alice : CurrentUser := {| cu_id := 1; cu_username := Some (py "alice") |}.
Definition bob : CurrentUser := {| cu_id := 2; cu_username := Some (py "bob") |}.

(** Alice and Bob register and each creates a task, which gets id 1 in its
    owner's scope. *)
Definition sample_trace : list (Env * Request) :=
  [ (sample_env "2024-01-01T00:00:00+00:00" "a1", POST_register (sample_auth "alice" "secret1"));
    (sample_env "2024-01-01T00:00:01+00:00" "b1", POST_register (sample_auth "bob" "secret2"));
    (sample_env "2024-01-01T00:00:02+00:00" "", POST_todos (py "a1") (sample_body "Buy milk" (Val 2)));
    (sample_env "2024-01-01T00:00:03+00:00" "", POST_todos (py "b1") (sample_body "Pay rent" Unset)) ].

Definition sample_state : State :=
  snd (serve sample_digest sample_email sample_trace initial_state).

Definition buy_milk : Todo :=
  {| t_id := 1; t_user_id := 1; t_title := py "Buy milk"; t_description := None;
     t_due_date := None; t_priority := 2; t_completed := false;
     t_created_at := py "2024-01-01T00:00:02+00:00" |}.

(** A patch that sets the title to three spaces and nothing else. *)
Definition blank_title_patch : TodoJson :=
  {| j_title := Val (py "   "); j_description := Unset; j_due_date := Unset;
     j_priority := Unset; j_completed := Unset |}.


(** Requests on the sample tables that rewrite Alice's task. *)
Definition rewrite_trace : list (Env * Request) :=
  [ (sample_env "2024-02-01T00:00:00+00:00" "",
     PUT_todo (py "a1") 1 (sample_body "Buy oat milk" (Val 5)));
    (sample_env "2024-02-01T00:00:01+00:00" "",
     PATCH_todo (py "a1") 1 (sample_body "Buy soy milk" Null));
    (sample_env "2024-02-01T00:00:02+00:00" "", PATCH_toggle (py "a1") 1) ].


Definition carol_register : UserRegister :=
  {| ur_username := py "carol"; ur_email := py "user@example.com";
     ur_password := py "secret3" |}.

Definition alice_record : User :=
  {| u_id := 1; u_username := py "alice"; u_email := py "user@example.com";
     u_password := sample_digest (py "secret1");
     u_created_at := py "2024-01-01T00:00:00+00:00" |}.

(** * Properties *)

(** ** Strings *)

Lemma lstrip_length (s : str) : (length (lstrip s) <= length s)%nat.
Proof.
  induction s as [|c r IH]; simpl; [lia|].
  destruct (isspace c); simpl; lia.
Qed.

Lemma rstrip_length (s : str) : (length (rstrip s) <= length s)%nat.
Proof.
  unfold rstrip. rewrite length_rev.
  pose proof (lstrip_length (rev s)) as H. rewrite length_rev in H. exact H.
Qed.

Lemma strip_length (s : str) : (length (strip s) <= length s)%nat.
Proof.
  unfold strip. pose proof (rstrip_length (lstrip s)).
  pose proof (lstrip_length s). lia.
Qed.

Lemma lstrip_idemp (s : str) : lstrip (lstrip s) = lstrip s.
Proof.
  induction s as [|c r IH]; simpl; [reflexivity|].
  destruct (isspace c) eqn:E; [exact IH|]. simpl. rewrite E. reflexivity.
Qed.

Lemma lstrip_snoc (l : str) (c : N) :
  isspace c = false -> lstrip (l ++ [c]) = lstrip l ++ [c].
Proof.
  intros Hc. induction l as [|a l IH]; simpl.
  - rewrite Hc. reflexivity.
  - destruct (isspace a); [exact IH | reflexivity].
Qed.

Lemma lstrip_fixed_head (c : N) (r : str) :
  lstrip (c :: r) = c :: r -> isspace c = false.
Proof.
  simpl. destruct (isspace c); [|reflexivity].
  intros H. pose proof (lstrip_length r) as L. rewrite H in L. simpl in L. lia.
Qed.

Lemma lstrip_rstrip (s : str) : lstrip s = s -> lstrip (rstrip s) = rstrip s.
Proof.
  destruct s as [|c r]; [reflexivity|].
  intros H. apply lstrip_fixed_head in H.
  unfold rstrip. simpl rev. rewrite (lstrip_snoc _ _ H).
  rewrite rev_app_distr. simpl. rewrite H. reflexivity.
Qed.

Lemma rstrip_idemp (s : str) : rstrip (rstrip s) = rstrip s.
Proof. unfold rstrip. rewrite rev_involutive, lstrip_idemp. reflexivity. Qed.

(** Trimming a trimmed string changes nothing. *)
Lemma strip_idemp (s : str) : strip (strip s) = strip s.
Proof.
  unfold strip. rewrite (lstrip_rstrip (lstrip s) (lstrip_idemp s)).
  apply rstrip_idemp.
Qed.

(** A string of whitespace trims to the empty string. *)
Lemma lstrip_whitespace (s : str) : forallb isspace s = true -> lstrip s = [].
Proof.
  induction s as [|c r IH]; simpl; [reflexivity|].
  destruct (isspace c); simpl; [exact IH | discriminate].
Qed.

Lemma strip_whitespace (s : str) : forallb isspace s = true -> strip s = [].
Proof. intros H. unfold strip. rewrite (lstrip_whitespace s H). reflexivity. Qed.

(** ** Dictionaries *)

Section PyDictFacts.
Context {K V : Type} `{EqDecision K}.
Implicit Types (d : dict K V) (k : K) (v : V).

Lemma dict_get_set_eq d k v : dict_get k (dict_set k v d) = Some v.
Proof.
  induction d as [|[k' v'] r IH]; simpl.
  - destruct (decide (k = k)); congruence.
  - destruct (decide (k = k')) as [E|E]; simpl.
    + destruct (decide (k = k)); congruence.
    + destruct (decide (k = k')); [contradiction | exact IH].
Qed.

Lemma dict_get_set_ne d k k' v : k ≠ k' -> dict_get k' (dict_set k v d) = dict_get k' d.
Proof.
  intros Hne. induction d as [|[k0 v0] r IH]; simpl.
  - destruct (decide (k' = k)); congruence.
  - destruct (decide (k = k0)) as [E|E]; simpl.
    + subst k0. destruct (decide (k' = k)); congruence.
    + destruct (decide (k' = k0)); [reflexivity | exact IH].
Qed.

Lemma dict_get_del_eq d k : dict_get k (dict_del k d) = None.
Proof.
  induction d as [|[k' v'] r IH]; simpl; [reflexivity|].
  destruct (decide (k = k')) as [E|E]; simpl; [exact IH|].
  destruct (decide (k = k')); [contradiction | exact IH].
Qed.

Lemma dict_get_del_ne d k k' : k ≠ k' -> dict_get k' (dict_del k d) = dict_get k' d.
Proof.
  intros Hne. induction d as [|[k0 v0] r IH]; simpl; [reflexivity|].
  destruct (decide (k = k0)) as [E|E]; simpl.
  - subst k0. destruct (decide (k' = k)); congruence.
  - destruct (decide (k' = k0)); [reflexivity | exact IH].
Qed.

(** Storing again what a key already holds leaves the dictionary as it is. *)
Lemma dict_set_same d k v : dict_get k d = Some v -> dict_set k v d = d.
Proof.
  induction d as [|[k' v'] r IH]; simpl; [discriminate|].
  destruct (decide (k = k')) as [E|E].
  - intros [= ->]. subst k'. reflexivity.
  - intros H. rewrite (IH H). reflexivity.
Qed.

Lemma dict_set_set d k v v' : dict_set k v (dict_set k v' d) = dict_set k v d.
Proof.
  induction d as [|[k' v0] r IH]; simpl.
  - destruct (decide (k = k)); congruence.
  - destruct (decide (k = k')) as [E|E]; simpl.
    + destruct (decide (k = k)); congruence.
    + destruct (decide (k = k')); [contradiction|]. rewrite IH. reflexivity.
Qed.

Lemma dict_get_values d k v : dict_get k d = Some v -> v ∈ dict_values d.
Proof.
  induction d as [|[k' v'] r IH]; simpl; [discriminate|].
  destruct (decide (k = k')).
  - intros [= ->]. apply list_elem_of_here.
  - intros H. apply list_elem_of_further, IH, H.
Qed.

Lemma dict_values_set d k v x :
  x ∈ dict_values (dict_set k v d) -> x = v ∨ x ∈ dict_values d.
Proof.
  induction d as [|[k' v'] r IH]; simpl.
  - intros H. apply list_elem_of_singleton in H. left. exact H.
  - destruct (decide (k = k')); simpl; intros H;
      apply elem_of_cons in H as [H|H].
    + left. exact H.
    + right. apply list_elem_of_further. exact H.
    + right. subst x. apply list_elem_of_here.
    + destruct (IH H) as [?|?]; [left; assumption|].
      right. apply list_elem_of_further. assumption.
Qed.

Lemma dict_values_del d k x :
  x ∈ dict_values (dict_del k d) -> x ∈ dict_values d.
Proof.
  induction d as [|[k' v'] r IH]; simpl; [trivial|].
  destruct (decide (k = k')); simpl; intros H.
  - apply list_elem_of_further, IH, H.
  - apply elem_of_cons in H as [H|H].
    + subst x. apply list_elem_of_here.
    + apply list_elem_of_further, IH, H.
Qed.
End PyDictFacts.

(** ** Running handlers *)

(** Reduce the projections of a state that is written out. *)
Ltac proj :=
  cbn [user_todos users_db sessions current_user_id current_todo_id
       with_user_todos with_users_db with_sessions with_current_user_id
       with_current_todo_id] in *.

Lemma bind_run {A B} (m : M A) (k : A -> M B) (st : State) :
  (m ≫= k) st =
  match m st with
  | (inr a, st') => k a st'
  | (inl e, st') => (inl e, st')
  end.
Proof. reflexivity. Qed.

Lemma get_user_todos_run (user_id : Z) (st : State) :
  get_user_todos user_id st = (inr (scope st user_id, next_id st user_id), ensure user_id st).
Proof.
  destruct st as [ut db ss cu ct].
  unfold get_user_todos, scope, next_id, ensure, mbind, M_bind, gets, modify,
    mret, M_ret, with_user_todos, with_current_todo_id.
  cbn.
  destruct (ut !! user_id) as [d|] eqn:Eu;
    destruct (ct !! user_id) as [n|] eqn:Ec;
    repeat (case_bool_decide; try discriminate; try congruence; cbn);
    rewrite ?lookup_total_alt, ?lookup_insert_eq, ?Eu, ?Ec; reflexivity.
Qed.

Lemma ensure_scope (u w : Z) (st : State) : scope (ensure u st) w = scope st w.
Proof.
  unfold scope, ensure. proj.
  destruct (user_todos st !! u) eqn:Eu; [reflexivity|].
  destruct (decide (u = w)) as [->|Hne].
  - rewrite lookup_insert_eq, Eu. reflexivity.
  - rewrite lookup_insert_ne by exact Hne. reflexivity.
Qed.

Lemma ensure_next_id (u w : Z) (st : State) : next_id (ensure u st) w = next_id st w.
Proof.
  unfold next_id, ensure. proj.
  destruct (current_todo_id st !! u) eqn:Eu; [reflexivity|].
  destruct (decide (u = w)) as [->|Hne].
  - rewrite lookup_insert_eq, Eu. reflexivity.
  - rewrite lookup_insert_ne by exact Hne. reflexivity.
Qed.

Lemma ensure_user_todos_self (u : Z) (st : State) :
  user_todos (ensure u st) !! u = Some (scope st u).
Proof.
  unfold scope, ensure. proj.
  destruct (user_todos st !! u) eqn:Eu; proj.
  - exact Eu.
  - apply lookup_insert_eq.
Qed.

Lemma ensure_user_todos_other (u w : Z) (st : State) :
  u ≠ w -> user_todos (ensure u st) !! w = user_todos st !! w.
Proof.
  intros Hne. unfold ensure. proj.
  destruct (user_todos st !! u); [reflexivity|]. apply lookup_insert_ne, Hne.
Qed.

Lemma ensure_current_todo_id_other (u w : Z) (st : State) :
  u ≠ w -> current_todo_id (ensure u st) !! w = current_todo_id st !! w.
Proof.
  intros Hne. unfold ensure. proj.
  destruct (current_todo_id st !! u); [reflexivity|]. apply lookup_insert_ne, Hne.
Qed.

(** A scope that holds a task exists, so making sure of it changes nothing. *)
Lemma ensure_user_todos_present (u id : Z) (t : Todo) (st : State) :
  dict_get id (scope st u) = Some t -> user_todos (ensure u st) = user_todos st.
Proof.
  unfold scope, ensure. proj.
  destruct (user_todos st !! u); [reflexivity | discriminate].
Qed.

Lemma scope_commit_self (u : Z) f (st : State) :
  scope (commit u f st) u = f (scope st u).
Proof.
  unfold commit, scope at 1. proj.
  rewrite lookup_alter_eq, ensure_user_todos_self. reflexivity.
Qed.

Lemma user_todos_commit_other (u w : Z) f (st : State) :
  u ≠ w -> user_todos (commit u f st) !! w = user_todos st !! w.
Proof.
  intros Hne. unfold commit. proj.
  rewrite lookup_alter_ne by exact Hne. apply ensure_user_todos_other, Hne.
Qed.

Lemma scope_commit_other (u w : Z) f (st : State) :
  u ≠ w -> scope (commit u f st) w = scope st w.
Proof.
  intros Hne. unfold scope. rewrite user_todos_commit_other by exact Hne.
  reflexivity.
Qed.

Lemma next_id_commit (u w : Z) f (st : State) :
  next_id (commit u f st) w = next_id st w.
Proof. exact (ensure_next_id u w st). Qed.

Lemma create_todo_run (todo : TodoCreate) (cu : CurrentUser) (now : str) (st : State) :
  create_todo todo cu now st =
  let u := cu_id cu in
  let t := new_todo todo u (next_id st u) now in
  (inr t,
   with_current_todo_id <[u := next_id st u + 1]>
     (commit u (dict_set (next_id st u) t) st)).
Proof.
  unfold create_todo. rewrite bind_run, get_user_todos_run. reflexivity.
Qed.

Lemma list_todos_run (cu : CurrentUser) (st : State) :
  list_todos cu st = (inr (dict_values (scope st (cu_id cu))), ensure (cu_id cu) st).
Proof.
  unfold list_todos. rewrite bind_run, get_user_todos_run. reflexivity.
Qed.

Lemma get_todo_run (id : Z) (cu : CurrentUser) (st : State) :
  get_todo id cu st =
  match dict_get id (scope st (cu_id cu)) with
  | None => (inl (NotFound id), ensure (cu_id cu) st)
  | Some t => (inr t, ensure (cu_id cu) st)
  end.
Proof.
  unfold get_todo. rewrite bind_run, get_user_todos_run.
  destruct (dict_get id (scope st (cu_id cu))); reflexivity.
Qed.

Lemma replace_todo_run (id : Z) (todo : TodoCreate) (cu : CurrentUser) (st : State) :
  replace_todo id todo cu st =
  match dict_get id (scope st (cu_id cu)) with
  | None => (inl (NotFound id), ensure (cu_id cu) st)
  | Some old =>
      let t := updated_todo todo (cu_id cu) id old in
      (inr t, commit (cu_id cu) (dict_set id t) st)
  end.
Proof.
  unfold replace_todo. rewrite bind_run, get_user_todos_run.
  destruct (dict_get id (scope st (cu_id cu))); reflexivity.
Qed.

Lemma update_todo_run (id : Z) (upd : TodoUpdate) (cu : CurrentUser) (st : State) :
  update_todo id upd cu st =
  match dict_get id (scope st (cu_id cu)) with
  | None => (inl (NotFound id), ensure (cu_id cu) st)
  | Some stored =>
      let t := fold_left assign (model_dump_exclude_unset upd) stored in
      (inr t, commit (cu_id cu) (dict_set id t) st)
  end.
Proof.
  unfold update_todo. rewrite bind_run, get_user_todos_run.
  destruct (dict_get id (scope st (cu_id cu))); reflexivity.
Qed.

Lemma toggle_todo_status_run (id : Z) (cu : CurrentUser) (st : State) :
  toggle_todo_status id cu st =
  match dict_get id (scope st (cu_id cu)) with
  | None => (inl (NotFound id), ensure (cu_id cu) st)
  | Some stored =>
      (inr (toggle stored), commit (cu_id cu) (dict_set id (toggle stored)) st)
  end.
Proof.
  unfold toggle_todo_status. rewrite bind_run, get_user_todos_run.
  destruct (dict_get id (scope st (cu_id cu))); reflexivity.
Qed.

Lemma delete_todo_run (id : Z) (cu : CurrentUser) (st : State) :
  delete_todo id cu st =
  match dict_get id (scope st (cu_id cu)) with
  | None => (inl (NotFound id), ensure (cu_id cu) st)
  | Some _ => (inr tt, commit (cu_id cu) (dict_del id) st)
  end.
Proof.
  unfold delete_todo. rewrite bind_run, get_user_todos_run.
  destruct (dict_get id (scope st (cu_id cu))); reflexivity.
Qed.

(** ** Partial update *)

Lemma as_str_inr {A} name (f : field str) (r : checked A) (x : A) :
  as_str name f r = inr x ->
  r = inr x /\ forall v, f = Val v -> is_unicode v = true.
Proof.
  unfold as_str. destruct f as [| |v]; try (intros ->; split; [reflexivity|]; discriminate).
  destruct (is_unicode v) eqn:E; [|discriminate].
  intros ->. split; [reflexivity|]. intros v' [= <-]. exact E.
Qed.

Lemma as_str_ok {A} name (f : field str) (r : checked A) :
  (forall v, f = Val v -> is_unicode v = true) -> as_str name f r = r.
Proof.
  intros H. unfold as_str. destruct f as [| |v]; try reflexivity.
  rewrite (H v eq_refl). reflexivity.
Qed.

Lemma as_str_inl {A} name (f : field str) (r : checked A) :
  r = inl name -> as_str name f r = inl name.
Proof.
  intros ->. unfold as_str. destruct f as [| |v]; try reflexivity.
  destruct (is_unicode v); reflexivity.
Qed.

Lemma patch_field_inr {A} name (ok : A -> bool) (f g : field A) :
  patch_field name ok f = inr g -> g = f.
Proof.
  destruct f as [| |a]; simpl; try congruence.
  destruct (ok a); congruence.
Qed.

(** A validated patch carries the fields of the body as they were sent. *)
Lemma validate_TodoUpdate_inr (patch : TodoJson) (upd : TodoUpdate) :
  validate_TodoUpdate patch = inr upd ->
  tu_title upd = j_title patch /\ tu_description upd = j_description patch
  /\ tu_due_date upd = j_due_date patch /\ tu_priority upd = j_priority patch
  /\ tu_completed upd = j_completed patch.
Proof.
  unfold validate_TodoUpdate. cbv zeta.
  destruct (as_str "title" (j_title patch) _) eqn:E1;
    destruct (as_str "description" (j_description patch) _) eqn:E2;
    destruct (as_str "due_date" (j_due_date patch) _) eqn:E3;
    destruct (patch_field "priority" (fun p => at_least 1 p && at_most 5 p)
                (j_priority patch)) eqn:E4;
    destruct (patch_field "completed" any_value (j_completed patch)) eqn:E5;
    try discriminate.
  intros [= <-]. simpl.
  apply as_str_inr in E1 as [E1 _], E2 as [E2 _], E3 as [E3 _].
  apply patch_field_inr in E1, E2, E3, E4, E5. auto.
Qed.

(** The loop of [update_todo] computes the specified patch. *)
Lemma update_loop_as_specified (patch : TodoJson) (upd : TodoUpdate) (t : Todo) :
  validate_TodoUpdate patch = inr upd ->
  fold_left assign (model_dump_exclude_unset upd) t = patched_as_specified patch t.
Proof.
  intros H. apply validate_TodoUpdate_inr in H as (H1 & H2 & H3 & H4 & H5).
  unfold model_dump_exclude_unset, patched_as_specified.
  rewrite H1, H2, H3, H4, H5. destruct t.
  destruct (j_title patch), (j_description patch), (j_due_date patch),
    (j_priority patch), (j_completed patch); reflexivity.
Qed.

Lemma parse_run {A} (r : list string + A) (st : State) :
  parse r st =
  match r with
  | inl fields => (inl (RequestValidationError fields), st)
  | inr a => (inr a, st)
  end.
Proof. destruct r; reflexivity. Qed.

(** C4. For an existing task and a patch that validates, PartialUpdate
    returns and stores the task in which exactly the fields the patch marks
    present with a value are replaced: a field that is present with null, or
    absent, keeps its stored value, and so do id, owner and creation time.
    The other tasks of the user are left as they were. *)
Theorem partial_update_applies_present_fields
    (cu : CurrentUser) (id : Z) (patch : TodoJson) (upd : TodoUpdate)
    (stored : Todo) (st : State) :
  dict_get id (scope st (cu_id cu)) = Some stored ->
  validate_TodoUpdate patch = inr upd ->
  exists st',
    task_store cu (PartialUpdate id patch) st
      = (inr (OTodo (patched_as_specified patch stored)), st')
    /\ dict_get id (scope st' (cu_id cu)) = Some (patched_as_specified patch stored)
    /\ forall id', id' ≠ id ->
         dict_get id' (scope st' (cu_id cu)) = dict_get id' (scope st (cu_id cu)).
Proof.
  intros Hget Hval.
  unfold task_store. rewrite bind_run, parse_run, Hval.
  rewrite bind_run, update_todo_run, Hget. cbv zeta.
  rewrite (update_loop_as_specified patch upd stored Hval).
  eexists. split; [reflexivity|]. rewrite scope_commit_self. split.
  - apply dict_get_set_eq.
  - intros id' Hne. apply dict_get_set_ne. congruence.
Qed.

Lemma partial_update_witness :
  exists st',
    task_store alice (PartialUpdate 1 (sample_body "Buy bread" Null)) sample_state
      = (inr (OTodo (patched_as_specified (sample_body "Buy bread" Null) buy_milk)), st')
    /\ dict_get 1 (scope st' (cu_id alice))
       = Some (patched_as_specified (sample_body "Buy bread" Null) buy_milk)
    /\ forall id', id' ≠ 1 ->
         dict_get id' (scope st' (cu_id alice)) = dict_get id' (scope sample_state (cu_id alice)).
Proof.
  eapply (partial_update_applies_present_fields alice 1
            (sample_body "Buy bread" Null)); vm_compute; reflexivity.
Defined.

(** ** Titles set by a partial update *)

(** C1. The creation-time title rule is not applied by PartialUpdate: on the
    sample tables, the patch that sets Alice's title to three spaces passes
    the validation of [TodoUpdate], and the title stored afterwards is the
    three spaces, which trim to the empty string. The same body is rejected
    by the model of Create and Replace, and the stored task no longer
    passes the response model. *)
Theorem partial_update_stores_blank_title :
  exists t st',
    task_store alice (PartialUpdate 1 blank_title_patch) sample_state
      = (inr (OTodo t), st')
    /\ dict_get 1 (scope st' (cu_id alice)) = Some t
    /\ t_title t = py "   "
    /\ strip (t_title t) = []
    /\ validate_TodoBase blank_title_patch = inl ["title"%string]
    /\ respond (OTodo t) st' = (inl (ResponseValidationError ["title"%string]), st').
Proof.
  eexists. eexists. split; [vm_compute; reflexivity|].
  repeat split; vm_compute; reflexivity.
Qed.

(** ** Toggle and logout *)

Lemma toggle_toggle (t : Todo) : toggle (toggle t) = t.
Proof. destruct t. unfold toggle. simpl. rewrite negb_involutive. reflexivity. Qed.

Lemma user_todos_commit_present (u id : Z) (t : Todo) f (st : State) :
  dict_get id (scope st u) = Some t ->
  user_todos (commit u f st) = alter f u (user_todos st).
Proof.
  intros H. unfold commit. proj.
  rewrite (ensure_user_todos_present u id t st H). reflexivity.
Qed.

Lemma logout_run (tok : str) (st : State) :
  logout tok st =
  (inr "Logged out successfully"%string,
   match sessions st !! tok with
   | Some _ => with_sessions (delete tok) st
   | None => st
   end).
Proof.
  unfold logout. rewrite bind_run. unfold gets at 1. cbv iota beta.
  destruct (sessions st !! tok) eqn:E; case_bool_decide as H.
  - reflexivity.
  - exfalso. apply H. eexists. reflexivity.
  - destruct H as [? H]. discriminate.
  - reflexivity.
Qed.

(** C8. Toggle on an existing task answers with the task whose [completed]
    is negated and stores it; a second Toggle answers with the original task
    and leaves the user's tasks exactly as they were before the first.
    Logout always answers with the success message: the first call removes
    the session if there is one, a second call on the same token changes
    nothing, and for a token that has no session the tables stay as they
    are. *)
Theorem toggle_twice_logout_twice :
  (forall (cu : CurrentUser) (id : Z) (t : Todo) (st : State),
      dict_get id (scope st (cu_id cu)) = Some t ->
      exists st1 st2,
        task_store cu (Toggle id) st = (inr (OTodo (toggle t)), st1)
        /\ t_completed (toggle t) = negb (t_completed t)
        /\ dict_get id (scope st1 (cu_id cu)) = Some (toggle t)
        /\ task_store cu (Toggle id) st1 = (inr (OTodo t), st2)
        /\ dict_get id (scope st2 (cu_id cu)) = Some t
        /\ user_todos st2 = user_todos st)
  /\ (forall (tok : str) (st : State),
        exists st1,
          logout tok st = (inr "Logged out successfully"%string, st1)
          /\ sessions st1 = delete tok (sessions st)
          /\ logout tok st1 = (inr "Logged out successfully"%string, st1)
          /\ (sessions st !! tok = None -> st1 = st)).
Proof.
  split.
  - intros cu id t st Hget.
    set (u := cu_id cu) in *.
    set (st1 := commit u (dict_set id (toggle t)) st).
    assert (Hget1 : dict_get id (scope st1 u) = Some (toggle t)).
    { unfold st1. rewrite scope_commit_self. apply dict_get_set_eq. }
    exists st1, (commit u (dict_set id t) st1).
    split.
    { unfold task_store. rewrite bind_run, toggle_todo_status_run.
      fold u. rewrite Hget. reflexivity. }
    split; [reflexivity|]. split; [exact Hget1|]. split.
    { unfold task_store. rewrite bind_run, toggle_todo_status_run.
      fold u. rewrite Hget1, toggle_toggle. reflexivity. }
    split.
    { rewrite scope_commit_self. apply dict_get_set_eq. }
    rewrite (user_todos_commit_present u id _ _ st1 Hget1). unfold st1.
    rewrite (user_todos_commit_present u id _ _ st Hget).
    apply map_eq. intros w. destruct (decide (u = w)) as [<-|Hne].
    + rewrite !lookup_alter_eq. unfold scope in Hget.
      destruct (user_todos st !! u) as [d|] eqn:E; simpl in *; [|discriminate].
      rewrite dict_set_set, (dict_set_same d id t Hget). reflexivity.
    + rewrite !lookup_alter_ne by exact Hne. reflexivity.
  - intros tok st. eexists. split; [apply logout_run|].
    destruct (sessions st !! tok) as [uid|] eqn:E.
    + split; [reflexivity|]. split; [|discriminate].
      rewrite logout_run. proj. rewrite lookup_delete_eq. reflexivity.
    + split; [symmetry; apply delete_id, E|].
      split; [|reflexivity]. rewrite logout_run, E. reflexivity.
Qed.

(** ** Validation of task bodies *)

Lemma len_nonneg {A} (s : list A) : 0 <= len s.
Proof. unfold len. lia. Qed.

Lemma len_nil_inv {A} (s : list A) : len s <= 0 -> s = [].
Proof. destruct s; [reflexivity|]. unfold len. simpl. lia. Qed.

Lemma strip_len (s : str) : len (strip s) <= len s.
Proof. unfold len. pose proof (strip_length s). lia. Qed.

Lemma check_title_inr (f : field str) (t : str) :
  check_title f = inr t ->
  exists v, f = Val v /\ t = strip v /\ 1 <= len v <= 100 /\ strip v ≠ [].
Proof.
  unfold check_title, required, validate_title, min_length, max_length.
  destruct f as [| |v]; try discriminate.
  destruct (1 <=? len v) eqn:E1; [|discriminate].
  destruct (len v <=? 100) eqn:E2; [|discriminate]. cbn.
  destruct (strip v) eqn:E; [discriminate|].
  intros [= <-]. exists v. repeat split; try lia; congruence.
Qed.

Lemma check_title_ok (v : str) :
  1 <= len v <= 100 -> strip v ≠ [] -> check_title (Val v) = inr (strip v).
Proof.
  intros [H1 H2] Hs.
  unfold check_title, required, validate_title, min_length, max_length.
  destruct (Z.leb_spec 1 (len v)); [|lia].
  destruct (Z.leb_spec (len v) 100); [|lia]. cbn.
  destruct (strip v); congruence.
Qed.

(** What a body that passes [TodoBase] looks like. *)
Lemma validate_TodoBase_inr (j : TodoJson) (tb : TodoBase) :
  validate_TodoBase j = inr tb ->
  check_title (j_title j) = inr (tb_title tb)
  /\ optional "description" (max_length 500) (j_description j)
     = inr (tb_description tb)
  /\ defaulted "priority" 3 (fun p => at_least 1 p && at_most 5 p) (j_priority j)
     = inr (tb_priority tb)
  /\ defaulted "completed" false any_value (j_completed j) = inr (tb_completed tb).
Proof.
  unfold validate_TodoBase. cbv zeta.
  destruct (as_str "title" (j_title j) _) eqn:E1;
    destruct (as_str "description" (j_description j) _) eqn:E2;
    destruct (as_str "due_date" (j_due_date j) _) eqn:E3;
    destruct (defaulted "priority" 3 (fun p => at_least 1 p && at_most 5 p)
                (j_priority j)) eqn:E4;
    destruct (defaulted "completed" false any_value (j_completed j)) eqn:E5;
    try discriminate.
  intros [= <-]. simpl.
  apply as_str_inr in E1 as [E1 _], E2 as [E2 _]. auto.
Qed.

Lemma validate_TodoResponse_valid (t : Todo) :
  valid_task t -> validate_TodoResponse t = inr t.
Proof.
  intros (Hlen & Hstrip & Hdesc & Hprio).
  unfold validate_TodoResponse. cbv zeta.
  assert (Hne : strip (t_title t) ≠ []).
  { rewrite Hstrip. intros E. rewrite E in Hlen. unfold len in Hlen. simpl in Hlen. lia. }
  rewrite (check_title_ok _ Hlen Hne), Hstrip.
  unfold required, optional, max_length, at_least, at_most.
  destruct (Z.leb_spec 1 (t_priority t)); [|lia].
  destruct (Z.leb_spec (t_priority t) 5); [|lia]. cbn.
  destruct t as [i u ti d dd p c ca]. simpl in *.
  destruct d as [d|]; [|reflexivity].
  specialize (Hdesc d eq_refl).
  destruct (Z.leb_spec (len d) 500); [reflexivity | lia].
Qed.

(** Whatever [TodoBase] accepted is stored as a valid task, by Create and by
    Replace alike. *)
Lemma validated_fields_valid (j : TodoJson) (tb : TodoBase) (t : Todo) :
  validate_TodoBase j = inr tb ->
  t_title t = tb_title tb -> t_description t = tb_description tb ->
  t_priority t = tb_priority tb ->
  valid_task t.
Proof.
  intros H Ht Hd Hp.
  apply validate_TodoBase_inr in H as (H1 & H2 & H4 & _).
  apply check_title_inr in H1 as (v & _ & Htb & Hlen & Hne).
  unfold valid_task. rewrite Ht, Hd, Hp, Htb.
  pose proof (strip_len v). pose proof (len_nonneg (strip v)).
  split.
  { split; [|lia]. destruct (Z.le_gt_cases 1 (len (strip v))); [assumption|].
    exfalso. apply Hne, len_nil_inv. lia. }
  split; [apply strip_idemp|]. split.
  - intros d Ed. rewrite Ed in H2. unfold optional, max_length in H2.
    destruct (j_description j) as [| |d']; try discriminate.
    destruct (Z.leb_spec (len d') 500); [|discriminate].
    injection H2 as ->. assumption.
  - unfold defaulted, at_least, at_most in H4.
    destruct (j_priority j) as [| |p]; try discriminate.
    + injection H4 as <-. lia.
    + destruct (Z.leb_spec 1 p); [|discriminate].
      destruct (Z.leb_spec p 5); [|discriminate]. injection H4 as <-. lia.
Qed.

(** ** Create at the boundaries *)

Lemma validate_TodoBase_title_error (j : TodoJson) :
  check_title (j_title j) = inl "title"%string ->
  exists fields, validate_TodoBase j = inl ("title"%string :: fields).
Proof.
  intros E. unfold validate_TodoBase. cbv zeta.
  rewrite (as_str_inl "title" (j_title j) _ E).
  destruct (as_str "description" _ _), (as_str "due_date" _ _),
    (defaulted "priority" _ _ _), (defaulted "completed" _ _ _);
    eexists; reflexivity.
Qed.

Lemma validate_TodoBase_priority_error (j : TodoJson) :
  defaulted "priority" 3 (fun p => at_least 1 p && at_most 5 p) (j_priority j)
    = inl "priority"%string ->
  exists fields, validate_TodoBase j = inl fields /\ "priority"%string ∈ fields.
Proof.
  intros E. unfold validate_TodoBase. cbv zeta. rewrite E.
  destruct (as_str "title" _ _), (as_str "description" _ _),
    (as_str "due_date" _ _), (defaulted "completed" _ _ _);
    eexists; (split; [reflexivity|]); cbn;
    repeat first [apply list_elem_of_here | apply list_elem_of_further].
Qed.

Lemma whitespace_title_rejected (v : str) :
  forallb isspace v = true -> check_title (Val v) = inl "title"%string.
Proof.
  intros H. unfold check_title, required, validate_title.
  destruct (min_length 1 v && max_length 100 v); [|reflexivity].
  rewrite (strip_whitespace v H). reflexivity.
Qed.

Lemma validate_TodoBase_ok (j : TodoJson) (v : str) (p : Z) :
  j_title j = Val v -> is_unicode v = true ->
  1 <= len v <= 100 -> strip v ≠ [] ->
  (forall d, j_description j = Val d -> is_unicode d = true /\ len d <= 500) ->
  (forall d, j_due_date j = Val d -> is_unicode d = true) ->
  j_priority j = Val p -> 1 <= p <= 5 ->
  j_completed j ≠ Null ->
  exists tb, validate_TodoBase j = inr tb
             /\ tb_title tb = strip v /\ tb_priority tb = p.
Proof.
  intros Ht Hu Hlen Hne Hd' Hdd Hp Hpr Hc.
  assert (Hd : forall d, j_description j = Val d -> len d <= 500)
    by (intros d E; apply (Hd' d E)).
  unfold validate_TodoBase. cbv zeta.
  rewrite (as_str_ok "description" (j_description j))
    by (intros d E; apply (Hd' d E)).
  rewrite (as_str_ok "due_date" (j_due_date j)) by exact Hdd.
  rewrite (as_str_ok "title" (j_title j))
    by (intros v' E; rewrite Ht in E; injection E as <-; exact Hu).
  rewrite Ht, (check_title_ok v Hlen Hne), Hp.
  assert (Epr : defaulted "priority" 3 (fun p => at_least 1 p && at_most 5 p)
                  (Val p) = inr p).
  { unfold defaulted, at_least, at_most.
    destruct (Z.leb_spec 1 p); [|lia]. destruct (Z.leb_spec p 5); [|lia].
    reflexivity. }
  rewrite Epr.
  assert (Ed : exists d, optional "description" (max_length 500) (j_description j)
                         = inr d).
  { unfold optional, max_length.
    destruct (j_description j) as [| |d]; try (eexists; reflexivity).
    specialize (Hd d eq_refl). destruct (Z.leb_spec (len d) 500); [|lia].
    eexists; reflexivity. }
  destruct Ed as [d ->].
  assert (Edd : exists d, optional "due_date" any_value (j_due_date j) = inr d).
  { unfold optional, any_value. destruct (j_due_date j); eexists; reflexivity. }
  destruct Edd as [dd ->].
  assert (Ec : exists c, defaulted "completed" false any_value (j_completed j)
                         = inr c).
  { unfold defaulted, any_value.
    destruct (j_completed j); try (eexists; reflexivity). congruence. }
  destruct Ec as [c ->].
  eexists. split; [reflexivity|]. split; reflexivity.
Qed.

(** A title that holds a lone surrogate is refused, whatever else it holds. *)
Lemma lone_surrogate_title_refused (j : TodoJson) (v : str) :
  j_title j = Val v -> is_unicode v = false ->
  exists fields, validate_TodoBase j = inl ("title"%string :: fields).
Proof.
  intros Ht Hu. unfold validate_TodoBase. cbv zeta.
  assert (E : as_str "title" (j_title j) (check_title (j_title j))
              = inl "title"%string)
    by (rewrite Ht; unfold as_str; rewrite Hu; reflexivity).
  rewrite E.
  destruct (as_str "description" _ _), (as_str "due_date" _ _),
    (defaulted "priority" _ _ _), (defaulted "completed" _ _ _);
    eexists; reflexivity.
Qed.

(** C5. Create answers with a validation error that names the title when
    the title consists of whitespace only, and with one that names the
    priority when the priority is 0 or 6; nothing is stored in either case.
    With priority 1 or 5 and the other fields valid (title, description and
    due date well-formed strings, the title of 1 to 100 characters and not
    blank, the description of at most 500, completed not null), Create
    succeeds: it answers with a task of that priority under the user's next
    id, that task is the one stored, and the response model passes it
    unchanged. *)
Theorem create_boundaries (cu : CurrentUser) (body : TodoJson) (now : str) (st : State) :
  (forall v, j_title body = Val v -> forallb isspace v = true ->
     exists fields,
       task_store cu (Create body now) st = (inl (RequestValidationError fields), st)
       /\ "title"%string ∈ fields)
  /\ (j_priority body = Val 0 \/ j_priority body = Val 6 ->
      exists fields,
        task_store cu (Create body now) st = (inl (RequestValidationError fields), st)
        /\ "priority"%string ∈ fields)
  /\ (forall p v,
        j_priority body = Val p -> p = 1 \/ p = 5 ->
        j_title body = Val v -> is_unicode v = true ->
        1 <= len v <= 100 -> strip v ≠ [] ->
        (forall d, j_description body = Val d ->
                   is_unicode d = true /\ len d <= 500) ->
        (forall d, j_due_date body = Val d -> is_unicode d = true) ->
        j_completed body ≠ Null ->
        exists t st',
          task_store cu (Create body now) st = (inr (OTodo t), st')
          /\ t_priority t = p /\ t_title t = strip v
          /\ t_id t = next_id st (cu_id cu) /\ t_user_id t = cu_id cu
          /\ dict_get (t_id t) (scope st' (cu_id cu)) = Some t
          /\ respond (OTodo t) st' = (inr (TodoResponse t), st')).
Proof.
  split; [|split].
  - intros v Ht Hw.
    destruct (validate_TodoBase_title_error body) as [fields E].
    { rewrite Ht. apply whitespace_title_rejected, Hw. }
    eexists. unfold task_store. rewrite bind_run, parse_run, E.
    split; [reflexivity | apply list_elem_of_here].
  - intros Hp.
    destruct (validate_TodoBase_priority_error body) as (fields & E & Hin).
    { destruct Hp as [-> | ->]; reflexivity. }
    exists fields. unfold task_store. rewrite bind_run, parse_run, E.
    split; [reflexivity | exact Hin].
  - intros p v Hp Hp15 Ht Hu Hlen Hne Hd Hdd Hc.
    destruct (validate_TodoBase_ok body v p Ht Hu Hlen Hne Hd Hdd Hp)
      as (tb & E & Etitle & Eprio); [lia | exact Hc |].
    unfold task_store. rewrite bind_run, parse_run, E.
    rewrite bind_run, create_todo_run. cbv zeta.
    eexists. eexists. split; [reflexivity|].
    split; [exact Eprio|]. split; [exact Etitle|].
    split; [reflexivity|]. split; [reflexivity|]. split.
    + unfold scope. proj. fold (scope (commit (cu_id cu)
        (dict_set (next_id st (cu_id cu)) (new_todo tb (cu_id cu) (next_id st (cu_id cu)) now)) st) (cu_id cu)).
      rewrite scope_commit_self. apply dict_get_set_eq.
    + unfold respond. rewrite bind_run.
      rewrite (validate_TodoResponse_valid (new_todo tb _ _ now)).
      * reflexivity.
      * apply (validated_fields_valid body tb); [exact E | reflexivity..].
Qed.

(** ** Identity manager *)

Section IdentityFacts.
Variable sha256_hexdigest : str -> str.
Variable validate_email : str -> option str.

Local Abbreviation app := (app sha256_hexdigest validate_email).
Local Abbreviation login := (login sha256_hexdigest).
Local Abbreviation register := (register sha256_hexdigest).
Local Abbreviation hash_password := (hash_password sha256_hexdigest).
Local Abbreviation validate_UserRegister := (validate_UserRegister validate_email).

Lemma login_run (user : UserLogin) (token : str) (st : State) :
  login user token st =
  match dict_get (ul_username user) (users_db st) with
  | None => (inl (HTTPException 401 "Invalid username or password"), st)
  | Some stored_user =>
      if bool_decide (u_password stored_user ≠ hash_password (ul_password user))
      then (inl (HTTPException 401 "Invalid username or password"), st)
      else (inr token, with_sessions <[token := u_id stored_user]> st)
  end.
Proof.
  unfold login. rewrite bind_run. unfold gets at 1.
  cbv iota beta.
  destruct (dict_get (ul_username user) (users_db st)); [|reflexivity].
  unfold hash_password. case_bool_decide; reflexivity.
Qed.


Lemma register_run (user : UserRegister) (now token : str) (st : State) :
  register user now token st =
  match dict_get (ur_username user) (users_db st) with
  | Some _ => (inl (HTTPException 400 "Username already exists"), st)
  | None =>
      let uid := current_user_id st in
      (inr token,
       {| user_todos := <[uid := []]> (user_todos st);
          users_db :=
            dict_set (ur_username user)
              {| u_id := uid; u_username := ur_username user;
                 u_email := ur_email user;
                 u_password := hash_password (ur_password user);
                 u_created_at := now |} (users_db st);
          sessions := <[token := uid]> (sessions st);
          current_user_id := uid + 1;
          current_todo_id := <[uid := 1]> (current_todo_id st) |})
  end.
Proof.
  unfold register. rewrite bind_run. unfold gets at 1.
  cbv iota beta.
  destruct (dict_get (ur_username user) (users_db st)); reflexivity.
Qed.

(** C9. A registration that is answered with "Username already exists"
    leaves every table and counter as it was; and a valid registration for
    a username that is taken is answered that way. *)
Theorem register_duplicate_changes_nothing
    (env : Env) (body : AuthJson) (st : State) :
  (forall st',
      app env (POST_register body) st
      = (inl (HTTPException 400 "Username already exists"), st') ->
      st' = st)
  /\ (forall user,
        validate_UserRegister body = inr user ->
        is_Some (dict_get (ur_username user) (users_db st)) ->
        app env (POST_register body) st
        = (inl (HTTPException 400 "Username already exists"), st)).
Proof.
  unfold app. rewrite bind_run, parse_run.
  split.
  - destruct (validate_UserRegister body) as [fields|user]; [congruence|].
    rewrite bind_run, register_run.
    destruct (dict_get (ur_username user) (users_db st)); cbv zeta.
    + intros st' [= <-]. reflexivity.
    + intros st' H. cbv [mret M_ret] in H. discriminate H.
  - intros user -> [u Hu]. rewrite bind_run, register_run, Hu. reflexivity.
Qed.

(** C10. A registration whose password has fewer than 6 characters is
    answered with a validation error that names the password, and the
    tables are left as they were. *)
Theorem register_rejects_short_password
    (env : Env) (body : AuthJson) (p : str) (st : State) :
  j_password body = Val p -> len p < 6 ->
  exists fields,
    app env (POST_register body) st = (inl (RequestValidationError fields), st)
    /\ "password"%string ∈ fields.
Proof.
  intros Hp Hlen. unfold app. rewrite bind_run, parse_run.
  unfold validate_UserRegister. cbv zeta. rewrite Hp.
  assert (E : required "password" (min_length 6) (Val p) = inl "password"%string).
  { unfold required, min_length. destruct (Z.leb_spec 6 (len p)); [lia|].
    reflexivity. }
  rewrite (as_str_inl "password" (Val p) _ E).
  destruct (as_str "username" _ _), (as_str "email" _ _);
    eexists; (split; [reflexivity|]); cbn;
    repeat first [apply list_elem_of_here | apply list_elem_of_further].
Qed.
End IdentityFacts.

(** ** Isolation between users *)

Lemma assign_frame (items : list Item) (t : Todo) :
  t_id (fold_left assign items t) = t_id t
  /\ t_user_id (fold_left assign items t) = t_user_id t
  /\ t_created_at (fold_left assign items t) = t_created_at t.
Proof.
  revert t. induction items as [|it items IH]; intros t; simpl; [auto|].
  destruct (IH (assign t it)) as (-> & -> & ->).
  destruct it as [[v|]|[v|]|[v|]|[v|]|[v|]]; simpl; auto.
Qed.

(** Unfold one operation of the task store down to the tables it leaves. *)
Ltac run_store :=
  unfold task_store;
  rewrite ?bind_run, ?parse_run;
  repeat match goal with
    | |- context [match validate_TodoBase ?b with _ => _ end] =>
        destruct (validate_TodoBase b) eqn:?
    | |- context [match validate_TodoUpdate ?b with _ => _ end] =>
        destruct (validate_TodoUpdate b) eqn:?
    end;
  rewrite ?bind_run, ?create_todo_run, ?list_todos_run, ?get_todo_run,
    ?replace_todo_run, ?update_todo_run, ?toggle_todo_status_run,
    ?delete_todo_run;
  cbv zeta;
  repeat match goal with
    | |- context [match dict_get ?i ?d with _ => _ end] =>
        destruct (dict_get i d) eqn:?
    end;
  cbv [mret M_ret].

Lemma ensure_other_tables (u : Z) (st : State) :
  users_db (ensure u st) = users_db st /\ sessions (ensure u st) = sessions st
  /\ current_user_id (ensure u st) = current_user_id st.
Proof. unfold ensure. proj. auto. Qed.

Lemma current_todo_id_commit (u : Z) f (st : State) :
  current_todo_id (commit u f st) = current_todo_id (ensure u st).
Proof. reflexivity. Qed.

(** An operation of the task store writes only into the scope and the
    counter of the identity it runs under. *)
Lemma task_store_frame (cu : CurrentUser) (c : Call) (st st' : State) r :
  task_store cu c st = (r, st') ->
  (forall w, w ≠ cu_id cu ->
     user_todos st' !! w = user_todos st !! w
     /\ current_todo_id st' !! w = current_todo_id st !! w)
  /\ users_db st' = users_db st /\ sessions st' = sessions st
  /\ current_user_id st' = current_user_id st.
Proof.
  destruct c; run_store; intros [= <- <-];
    (split; [intros w Hw; split | try apply ensure_other_tables; auto]);
    proj;
    rewrite ?current_todo_id_commit, ?user_todos_commit_other,
      ?lookup_insert_ne, ?ensure_user_todos_other,
      ?ensure_current_todo_id_other by congruence;
    reflexivity.
Qed.

(** What an operation answers depends on the tables only through the scope
    and the counter of the identity it runs under. *)
Lemma task_store_local (cu : CurrentUser) (c : Call) (st1 st2 : State) :
  scope st1 (cu_id cu) = scope st2 (cu_id cu) ->
  next_id st1 (cu_id cu) = next_id st2 (cu_id cu) ->
  fst (task_store cu c st1) = fst (task_store cu c st2).
Proof.
  intros Hs Hn.
  destruct c; unfold task_store; rewrite ?bind_run, ?parse_run;
    repeat match goal with
      | |- context [match validate_TodoBase ?b with _ => _ end] =>
          destruct (validate_TodoBase b) eqn:?
      | |- context [match validate_TodoUpdate ?b with _ => _ end] =>
          destruct (validate_TodoUpdate b) eqn:?
      end;
    rewrite ?bind_run, ?create_todo_run, ?list_todos_run, ?get_todo_run,
      ?replace_todo_run, ?update_todo_run, ?toggle_todo_status_run,
      ?delete_todo_run;
    cbv zeta; rewrite ?Hs, ?Hn;
    repeat match goal with
      | |- context [match dict_get ?i ?d with _ => _ end] =>
          destruct (dict_get i d) eqn:?
      end;
    reflexivity.
Qed.

Lemma scope_forget (u w : Z) (st : State) : u ≠ w -> scope (forget u st) w = scope st w.
Proof.
  intros Hne. unfold scope, forget. proj. rewrite lookup_delete_ne by exact Hne.
  reflexivity.
Qed.

Lemma next_id_forget (u w : Z) (st : State) :
  u ≠ w -> next_id (forget u st) w = next_id st w.
Proof.
  intros Hne. unfold next_id, forget. proj.
  rewrite lookup_delete_ne by exact Hne. reflexivity.
Qed.

Lemma owned_scope (st : State) (w : Z) (t : Todo) :
  owned st -> t ∈ dict_values (scope st w) -> t_user_id t = w.
Proof.
  intros Ho Hin. unfold scope in Hin.
  destruct (user_todos st !! w) as [d|] eqn:E; simpl in Hin.
  - specialize (Ho w d E). simpl in Ho. rewrite Forall_forall in Ho.
    apply Ho, Hin.
  - apply not_elem_of_nil in Hin. contradiction.
Qed.

Lemma owned_ensure (u : Z) (st : State) : owned st -> owned (ensure u st).
Proof.
  intros Ho w d. unfold ensure. proj.
  destruct (user_todos st !! u) eqn:E; [apply Ho|].
  intros [[-> <-] | [_ H]]%lookup_insert_Some.
  - constructor.
  - apply (Ho w d H).
Qed.

Lemma owned_commit (u : Z) f (st : State) :
  owned st ->
  (forall t, t ∈ dict_values (f (scope st u)) ->
             t_user_id t = u \/ t ∈ dict_values (scope st u)) ->
  owned (commit u f st).
Proof.
  intros Ho Hf w d Hd. simpl. rewrite Forall_forall. intros t Ht.
  destruct (decide (u = w)) as [<-|Hne].
  - assert (E : scope (commit u f st) u = d) by (unfold scope; rewrite Hd; reflexivity).
    rewrite scope_commit_self in E. subst d.
    destruct (Hf t Ht) as [?|Hin]; [assumption|].
    apply (owned_scope st u t Ho Hin).
  - rewrite user_todos_commit_other in Hd by exact Hne.
    specialize (Ho w d Hd). simpl in Ho. rewrite Forall_forall in Ho.
    apply Ho, Ht.
Qed.

(** The tasks an operation hands out, and the tables it leaves, respect
    ownership. *)
Lemma task_store_owned (cu : CurrentUser) (c : Call) (st st' : State) r :
  owned st -> task_store cu c st = (r, st') ->
  owned st'
  /\ forall o t, r = inr o -> returned t o -> t_user_id t = cu_id cu.
Proof.
  intros Ho.
  destruct c; run_store; intros [= <- <-];
    (split; [| intros o t' [= <-] Hr; simpl in Hr]);
    try exact Ho; try (apply owned_ensure, Ho); try contradiction.
  - (* Create *)
    unfold owned. proj. apply owned_commit; [exact Ho|].
    intros t' [->|H]%dict_values_set; [left; reflexivity | right; exact H].
  - subst t'. reflexivity.
  - (* List *) apply (owned_scope st _ t' Ho Hr).
  - (* Get *) subst t'. eapply owned_scope, dict_get_values; eassumption.
  - (* Replace *)
    apply owned_commit; [exact Ho|].
    intros t' [->|H]%dict_values_set; [left; reflexivity | right; exact H].
  - subst t'. reflexivity.
  - (* PartialUpdate *)
    apply owned_commit; [exact Ho|].
    intros t' [->|H]%dict_values_set; [left | right; exact H].
    match goal with
    | |- context [fold_left assign ?l ?x] =>
        destruct (assign_frame l x) as (_ & -> & _)
    end.
    eapply owned_scope, dict_get_values; eassumption.
  - subst t'.
    match goal with
    | |- context [fold_left assign ?l ?x] =>
        destruct (assign_frame l x) as (_ & -> & _)
    end.
    eapply owned_scope, dict_get_values; eassumption.
  - (* Toggle *)
    apply owned_commit; [exact Ho|].
    intros t' [->|H]%dict_values_set; [left | right; exact H].
    unfold toggle. simpl.
    eapply owned_scope, dict_get_values; eassumption.
  - subst t'. unfold toggle. simpl.
    eapply owned_scope, dict_get_values; eassumption.
  - (* Delete *)
    apply owned_commit; [exact Ho|].
    intros t' H%dict_values_del. right. exact H.
Qed.

(** An id the acting user's scope does not hold is not found. *)
Lemma task_store_not_found (cu : CurrentUser) (c : Call) (id : Z) (st : State) :
  target c = Some id -> body_accepted c ->
  dict_get id (scope st (cu_id cu)) = None ->
  fst (task_store cu c st) = inl (NotFound id).
Proof.
  intros Ht Hb Hget.
  destruct c; simpl in Ht, Hb; try discriminate; injection Ht as ->;
    unfold task_store; rewrite ?bind_run, ?parse_run;
    repeat match goal with
      | |- context [match validate_TodoBase ?b with _ => _ end] =>
          destruct (validate_TodoBase b) eqn:?; [contradiction|]
      | |- context [match validate_TodoUpdate ?b with _ => _ end] =>
          destruct (validate_TodoUpdate b) eqn:?; [contradiction|]
      end;
    rewrite ?bind_run, ?get_todo_run, ?replace_todo_run, ?update_todo_run,
      ?toggle_todo_status_run, ?delete_todo_run, ?Hget;
    reflexivity.
Qed.

(** C2. Let V, different from U, run any operation of the task store on
    tables in which every task sits in its owner's scope. Then U's scope and
    counter are exactly as before (nothing of U's is modified or deleted);
    every task the answer hands out belongs to V and is not one of U's; the
    answer is the one V gets when U holds nothing at all; and an id that V's
    scope does not hold is answered with the 404 of a missing task, whatever
    U holds under that id. The tables stay well-owned. *)
Theorem users_are_isolated
    (U V : Z) (cu : CurrentUser) (c : Call) (st st' : State) r :
  U ≠ V -> cu_id cu = V -> owned st ->
  task_store cu c st = (r, st') ->
  (user_todos st' !! U = user_todos st !! U
   /\ current_todo_id st' !! U = current_todo_id st !! U)
  /\ (forall o t, r = inr o -> returned t o ->
        t_user_id t = V /\ t ∉ dict_values (scope st U))
  /\ fst (task_store cu c (forget U st)) = r
  /\ (forall id, target c = Some id -> body_accepted c ->
        dict_get id (scope st V) = None -> r = inl (NotFound id))
  /\ owned st'.
Proof.
  intros Hne HV Ho Hrun.
  destruct (task_store_frame cu c st st' r Hrun) as (Hframe & _).
  destruct (task_store_owned cu c st st' r Ho Hrun) as (Ho' & Hret).
  split; [apply Hframe; congruence|].
  split.
  { intros o t Er Hr. specialize (Hret o t Er Hr). split; [congruence|].
    intros Hin. apply (owned_scope st U t Ho) in Hin. congruence. }
  split.
  { rewrite (task_store_local cu c (forget U st) st).
    - rewrite Hrun. reflexivity.
    - apply scope_forget. congruence.
    - apply next_id_forget. congruence. }
  split; [|exact Ho'].
  intros id Ht Hb Hget. subst V.
  pose proof (task_store_not_found cu c id st Ht Hb Hget) as H.
  rewrite Hrun in H. exact H.
Qed.

(** ** The invariant of the tables *)

Lemma get_current_user_run (cred : str) (st : State) :
  get_current_user cred st =
  match sessions st !! cred with
  | None => (inl (HTTPException 401 "Invalid or expired token"), st)
  | Some user_id =>
      if bool_decide (user_id ∈ (u_id <$> dict_values (users_db st))) then
        (inr {| cu_id := user_id;
                cu_username :=
                  head (u_username <$>
                          filter (fun u => u_id u = user_id)
                            (dict_values (users_db st))) |}, st)
      else (inl (HTTPException 401 "User not found"), st)
  end.
Proof.
  unfold get_current_user. rewrite bind_run. unfold gets at 1. cbv iota beta.
  destruct (sessions st !! cred); [|reflexivity].
  rewrite bind_run. unfold gets at 1. cbv iota beta.
  case_bool_decide; reflexivity.
Qed.

(** The authentication dependency never writes; when it succeeds, the
    identity it returns is the one the session table holds for the token. *)
Lemma get_current_user_inv (cred : str) (st st' : State) r :
  get_current_user cred st = (r, st') ->
  st' = st
  /\ forall cu, r = inr cu -> sessions st !! cred = Some (cu_id cu).
Proof.
  rewrite get_current_user_run.
  destruct (sessions st !! cred) as [uid|]; [case_bool_decide|];
    intros [= <- <-]; (split; [reflexivity|]); intros cu [= <-]; reflexivity.
Qed.

Lemma respond_inv (o : Outcome) (st st' : State) r :
  respond o st = (r, st') -> st' = st.
Proof.
  destruct o as [t|ts|]; unfold respond; rewrite ?bind_run.
  - destruct (validate_TodoResponse t); cbv [serialize raise mret M_ret];
      intros [= _ <-]; reflexivity.
  - destruct (validate_TodoResponses ts); cbv [serialize raise mret M_ret];
      intros [= _ <-]; reflexivity.
  - cbv [mret M_ret]. intros [= _ <-]. reflexivity.
Qed.

(** A task route either fails before the task store is reached, leaving the
    tables alone, or runs one operation under the identity of the session. *)
Lemma task_route_inv (cred : str) (c : Call) (st st' : State) r :
  task_route cred c st = (r, st') ->
  (st' = st /\
   match r with
   | inl _ => True
   | inr _ => False
   end)
  \/ exists cu ro,
       sessions st !! cred = Some (cu_id cu)
       /\ task_store cu c st = (ro, st')
       /\ match ro with
          | inl e => r = inl e
          | inr o => r = fst (respond o st')
          end.
Proof.
  unfold task_route. rewrite bind_run.
  destruct (get_current_user cred st) as [[e|cu] st0] eqn:Eu;
    apply get_current_user_inv in Eu as [-> Hs].
  - intros [= <- <-]. left. auto.
  - rewrite bind_run. destruct (task_store cu c st) as [[e|o] st1] eqn:Es.
    + intros [= <- <-]. right. exists cu, (inl e). auto.
    + intros H. pose proof (respond_inv _ _ _ _ H) as ->.
      right. exists cu, (inr o). rewrite H. auto.
Qed.

Section PyDictKeys.
Context {K V : Type} `{EqDecision K}.
Implicit Types (d : dict K V) (k : K) (v : V).

Lemma dict_get_set_is_Some d k k' v :
  is_Some (dict_get k' (dict_set k v d)) -> k' = k \/ is_Some (dict_get k' d).
Proof.
  destruct (decide (k = k')) as [->|Hne]; [left; reflexivity|].
  rewrite dict_get_set_ne by exact Hne. right. assumption.
Qed.

Lemma dict_get_del_is_Some d k k' :
  is_Some (dict_get k' (dict_del k d)) -> k' ≠ k /\ is_Some (dict_get k' d).
Proof.
  destruct (decide (k = k')) as [->|Hne].
  - rewrite dict_get_del_eq. intros [? H]. discriminate.
  - rewrite dict_get_del_ne by exact Hne. intros H. split; [congruence | exact H].
Qed.
End PyDictKeys.

Lemma next_id_bump (u : Z) (n : Z) (st : State) :
  next_id (with_current_todo_id <[u := n]> st) u = n.
Proof. unfold next_id. proj. rewrite lookup_insert_eq. reflexivity. Qed.



(** Task ids stay below the counter of their scope. *)
Lemma task_store_ids (cu : CurrentUser) (c : Call) (st st' : State) r :
  task_store cu c st = (r, st') ->
  (forall id, is_Some (dict_get id (scope st (cu_id cu))) ->
              id < next_id st (cu_id cu)) ->
  forall id, is_Some (dict_get id (scope st' (cu_id cu))) ->
             id < next_id st' (cu_id cu).
Proof.
  destruct c; run_store; intros [= <- <-] Hlt id;
    try (rewrite ?ensure_scope, ?ensure_next_id; apply Hlt).
  - (* Create *)
    rewrite next_id_bump.
    change (scope (with_current_todo_id ?g ?s) ?u) with (scope s u).
    rewrite scope_commit_self.
    intros [->|H]%dict_get_set_is_Some; [lia|]. specialize (Hlt id H). lia.
  - rewrite scope_commit_self, next_id_commit.
    intros [->|H]%dict_get_set_is_Some; apply Hlt; [eexists; eassumption | exact H].
  - rewrite scope_commit_self, next_id_commit.
    intros [->|H]%dict_get_set_is_Some; apply Hlt; [eexists; eassumption | exact H].
  - rewrite scope_commit_self, next_id_commit.
    intros [->|H]%dict_get_set_is_Some; apply Hlt; [eexists; eassumption | exact H].
  - rewrite scope_commit_self, next_id_commit.
    intros [_ H]%dict_get_del_is_Some. apply Hlt, H.
Qed.

Lemma scope_of_lookup (st st' : State) (w : Z) :
  user_todos st' !! w = user_todos st !! w -> scope st' w = scope st w.
Proof. unfold scope. intros ->. reflexivity. Qed.

Lemma next_id_of_lookup (st st' : State) (w : Z) :
  current_todo_id st' !! w = current_todo_id st !! w -> next_id st' w = next_id st w.
Proof. unfold next_id. intros ->. reflexivity. Qed.

(** The task store keeps the invariant when it runs under an id that was
    handed out. *)
Lemma task_store_consistent (cu : CurrentUser) (c : Call) (st st' : State) r :
  consistent st -> cu_id cu < current_user_id st ->
  task_store cu c st = (r, st') -> consistent st'.
Proof.
  intros (Hs & Hu & Hfresh & Hids & Ho) Hcu Hrun.
  destruct (task_store_frame cu c st st' r Hrun) as (Hframe & Hdb & Hss & Hcur).
  unfold consistent. rewrite Hdb, Hss, Hcur.
  split; [exact Hs|]. split; [exact Hu|]. split.
  { intros u Hle. destruct (Hframe u) as [-> ->]; [lia|]. apply Hfresh, Hle. }
  split; [|eapply task_store_owned; eassumption].
  intros u id. destruct (decide (u = cu_id cu)) as [->|Hne].
  - apply (task_store_ids cu c st st' r Hrun). apply Hids.
  - destruct (Hframe u Hne) as [E1 E2].
    rewrite (scope_of_lookup _ _ _ E1), (next_id_of_lookup _ _ _ E2). apply Hids.
Qed.

(** ** Runs of the server *)

Lemma consistent_initial : consistent initial_state.
Proof.
  unfold consistent, initial_state, scope, owned. proj.
  split; [intros tok uid H; rewrite lookup_empty in H; discriminate|].
  split; [constructor|].
  split; [intros u _; rewrite !lookup_empty; auto|].
  split; [|apply map_Forall_empty].
  intros u id. rewrite lookup_empty. simpl. intros [? H]. discriminate.
Qed.

Section ServerFacts.
Variable sha256_hexdigest : str -> str.
Variable validate_email : str -> option str.

Local Abbreviation app := (app sha256_hexdigest validate_email).
Local Abbreviation serve := (serve sha256_hexdigest validate_email).

Lemma register_consistent (user : UserRegister) (now token : str)
    (st st' : State) r :
  consistent st ->
  register sha256_hexdigest user now token st = (r, st') -> consistent st'.
Proof.
  intros Hc. rewrite register_run.
  destruct (dict_get (ur_username user) (users_db st)).
  { intros [= <- <-]. exact Hc. }
  destruct Hc as (Hs & Hu & Hfresh & Hids & Ho).
  cbv zeta. intros [= <- <-]. unfold consistent. proj.
  destruct (Hfresh (current_user_id st)) as [Hut Hct]; [lia|].
  split.
  { intros tok uid [[_ <-] | [_ H]]%lookup_insert_Some; [lia|].
    specialize (Hs tok uid H). lia. }
  split.
  { rewrite Forall_forall. intros u [->|H]%dict_values_set; [simpl; lia|].
    rewrite Forall_forall in Hu. specialize (Hu u H). simpl in Hu. lia. }
  split.
  { intros u Hle. rewrite !lookup_insert_ne by lia. apply Hfresh. lia. }
  split.
  - intros u id. unfold scope, next_id. proj.
    destruct (decide (current_user_id st = u)) as [<-|Hne].
    + rewrite lookup_insert_eq. simpl. intros [? H]. discriminate.
    + rewrite !lookup_insert_ne by exact Hne. apply Hids.
  - unfold owned. proj. apply map_Forall_insert_2; [constructor | exact Ho].
Qed.

Lemma app_consistent (env : Env) (req : Request) (st st' : State) r :
  consistent st -> app env req st = (r, st') -> consistent st'.
Proof.
  intros Hc. destruct req; unfold app.
  - intros [= <- <-]. exact Hc.
  - rewrite bind_run, parse_run.
    destruct (validate_UserRegister validate_email body) as [e|user].
    { intros [= <- <-]. exact Hc. }
    rewrite bind_run.
    destruct (register sha256_hexdigest user _ _ st) as [[e|tok] st1] eqn:E;
      intros [= <- <-]; eapply register_consistent; eassumption.
  - rewrite bind_run, parse_run.
    destruct (validate_UserLogin body) as [e|user].
    { intros [= <- <-]. exact Hc. }
    rewrite bind_run, login_run.
    destruct (dict_get (ul_username user) (users_db st)) as [stored|] eqn:Eu.
    2: { intros [= <- <-]. exact Hc. }
    case_bool_decide; intros [= <- <-]; [exact Hc|].
    destruct Hc as (Hs & Hu & Hfresh & Hids & Ho).
    unfold consistent. proj.
    split; [|split; [exact Hu | split; [exact Hfresh | split; [exact Hids | exact Ho]]]].
    intros tok uid [[_ <-] | [_ Hl]]%lookup_insert_Some; [|apply (Hs tok uid Hl)].
    rewrite Forall_forall in Hu. apply (Hu stored).
    eapply dict_get_values, Eu.
  - rewrite bind_run, logout_run. intros [= <- <-].
    destruct (sessions st !! credentials); [|exact Hc].
    destruct Hc as (Hs & Hu & Hfresh & Hids & Ho).
    unfold consistent. proj.
    split; [|split; [exact Hu | split; [exact Hfresh | split; [exact Hids | exact Ho]]]].
    intros tok uid [_ H]%lookup_delete_Some. apply (Hs tok uid H).
  - rewrite bind_run.
    destruct (get_current_user credentials st) as [[e|cu] st0] eqn:Eu;
      apply get_current_user_inv in Eu as [-> _].
    { intros [= <- <-]. exact Hc. }
    rewrite bind_run. unfold get_current_user_info. rewrite bind_run.
    unfold gets at 1. cbv iota beta.
    destruct (cu_username cu) as [n|]; [|intros [= <- <-]; exact Hc].
    destruct (dict_get n (users_db st)); intros [= <- <-]; exact Hc.
  - intros [[-> _] | (cu & ro & Hs & Hrun & _)]%task_route_inv; [exact Hc|].
    eapply task_store_consistent; [exact Hc | | exact Hrun].
    destruct Hc as (H & _). apply (H _ _ Hs).
  - intros [[-> _] | (cu & ro & Hs & Hrun & _)]%task_route_inv; [exact Hc|].
    eapply task_store_consistent; [exact Hc | | exact Hrun].
    destruct Hc as (H & _). apply (H _ _ Hs).
  - intros [[-> _] | (cu & ro & Hs & Hrun & _)]%task_route_inv; [exact Hc|].
    eapply task_store_consistent; [exact Hc | | exact Hrun].
    destruct Hc as (H & _). apply (H _ _ Hs).
  - intros [[-> _] | (cu & ro & Hs & Hrun & _)]%task_route_inv; [exact Hc|].
    eapply task_store_consistent; [exact Hc | | exact Hrun].
    destruct Hc as (H & _). apply (H _ _ Hs).
  - intros [[-> _] | (cu & ro & Hs & Hrun & _)]%task_route_inv; [exact Hc|].
    eapply task_store_consistent; [exact Hc | | exact Hrun].
    destruct Hc as (H & _). apply (H _ _ Hs).
  - intros [[-> _] | (cu & ro & Hs & Hrun & _)]%task_route_inv; [exact Hc|].
    eapply task_store_consistent; [exact Hc | | exact Hrun].
    destruct Hc as (H & _). apply (H _ _ Hs).
  - intros [[-> _] | (cu & ro & Hs & Hrun & _)]%task_route_inv; [exact Hc|].
    eapply task_store_consistent; [exact Hc | | exact Hrun].
    destruct Hc as (H & _). apply (H _ _ Hs).
Qed.

(** Every table the server can reach satisfies the invariant. *)
Lemma serve_consistent (trace : list (Env * Request)) (st : State) :
  consistent st -> consistent (snd (serve trace st)).
Proof.
  revert st. induction trace as [|[env req] rest IH]; intros st Hc; [exact Hc|].
  simpl. destruct (app env req st) as [r st1] eqn:E.
  specialize (IH st1 (app_consistent env req st st1 r Hc E)).
  destruct (serve rest st1). exact IH.
Qed.
End ServerFacts.

(** ** Task ids *)


Section CounterFacts.
Variable sha256_hexdigest : str -> str.
Variable validate_email : str -> option str.

Local Abbreviation app := (app sha256_hexdigest validate_email).
Local Abbreviation serve := (serve sha256_hexdigest validate_email).



End CounterFacts.

(** ** Creation time *)

(** Replace, PartialUpdate and Toggle keep every task there is, with its
    creation time. *)
Lemma update_keeps_created_at
    (cu : CurrentUser) (c : Call) (st st' : State) r (w id : Z) (t : Todo) :
  is_update c ->
  dict_get id (scope st w) = Some t ->
  task_store cu c st = (r, st') ->
  exists t', dict_get id (scope st' w) = Some t'
             /\ t_created_at t' = t_created_at t.
Proof.
  intros Hup Hget Hrun.
  destruct (decide (w = cu_id cu)) as [->|Hne].
  2: { destruct (task_store_frame cu c st st' r Hrun) as (Hframe & _).
       destruct (Hframe w Hne) as [E _].
       rewrite (scope_of_lookup _ _ _ E). eauto. }
  revert Hrun.
  destruct c as [| |?|i ?|i ?|i|?]; try contradiction; run_store;
    intros [= <- <-]; rewrite ?ensure_scope; eauto;
    rewrite scope_commit_self;
    (destruct (decide (i = id)) as [->|Hi];
     [rewrite dict_get_set_eq | rewrite dict_get_set_ne by exact Hi; eauto]);
    eexists; (split; [reflexivity|]);
    match goal with
    | H1 : dict_get id _ = Some ?a, H2 : dict_get id _ = Some ?b |- _ =>
        rewrite H1 in H2; injection H2 as ->
    end.
  - reflexivity.
  - apply assign_frame.
  - reflexivity.
Qed.

Lemma task_store_kept
    (cu : CurrentUser) (c : Call) (st st' : State) r (u id : Z) (ca : str) :
  consistent st -> cu_id cu < current_user_id st ->
  task_store cu c st = (r, st') ->
  kept u id ca st -> kept u id ca st'.
Proof.
  intros Hc Hcu Hrun.
  destruct (task_store_frame cu c st st' r Hrun) as (Hframe & _ & _ & Hcur).
  destruct (decide (u = cu_id cu)) as [->|Hne].
  2: { destruct (Hframe u Hne) as [E1 E2]. unfold kept.
       rewrite Hcur, (scope_of_lookup _ _ _ E1), (next_id_of_lookup _ _ _ E2).
       trivial. }
  destruct Hc as (_ & _ & _ & Hids & _).
  specialize (Hids (cu_id cu)).
  revert Hrun.
  destruct c as [? ?| |?|i ?|i ?|i|i]; run_store; intros [= <- <-];
    unfold kept; try rewrite Hcur;
    rewrite ?ensure_scope, ?ensure_next_id; trivial.
  - (* Create *)
    rewrite next_id_bump.
    change (scope (with_current_todo_id ?g ?s) ?u) with (scope s u).
    rewrite scope_commit_self.
    destruct (dict_get id (scope st (cu_id cu))) as [held|] eqn:E.
    + rewrite dict_get_set_ne; [rewrite E; trivial|].
      specialize (Hids id (ex_intro _ held E)). lia.
    + intros [Hlt ?]. rewrite dict_get_set_ne by lia. rewrite E. split; lia.
  - (* Replace *)
    rewrite scope_commit_self, next_id_commit.
    destruct (decide (i = id)) as [->|Hi].
    + rewrite dict_get_set_eq.
      match goal with H : dict_get id _ = Some _ |- _ => rewrite H end.
      trivial.
    + rewrite dict_get_set_ne by exact Hi. trivial.
  - (* PartialUpdate *)
    rewrite scope_commit_self, next_id_commit.
    destruct (decide (i = id)) as [->|Hi].
    + rewrite dict_get_set_eq.
      match goal with H : dict_get id _ = Some _ |- _ => rewrite H end.
      intros <-. apply assign_frame.
    + rewrite dict_get_set_ne by exact Hi. trivial.
  - (* Toggle *)
    rewrite scope_commit_self, next_id_commit.
    destruct (decide (i = id)) as [->|Hi].
    + rewrite dict_get_set_eq.
      match goal with H : dict_get id _ = Some _ |- _ => rewrite H end.
      trivial.
    + rewrite dict_get_set_ne by exact Hi. trivial.
  - (* Delete *)
    rewrite scope_commit_self, next_id_commit.
    destruct (decide (i = id)) as [->|Hi].
    + rewrite dict_get_del_eq. intros _. split; [|exact Hcu].
      apply Hids. eexists. eassumption.
    + rewrite dict_get_del_ne by exact Hi. trivial.
Qed.

Section CreationTimeFacts.
Variable sha256_hexdigest : str -> str.
Variable validate_email : str -> option str.

Local Abbreviation app := (app sha256_hexdigest validate_email).
Local Abbreviation serve := (serve sha256_hexdigest validate_email).

Lemma app_kept (env : Env) (req : Request) (st st' : State) r
    (u id : Z) (ca : str) :
  consistent st -> app env req st = (r, st') ->
  kept u id ca st -> kept u id ca st'.
Proof.
  intros Hc. destruct req; unfold app;
    try (intros [[-> _] | (cu & ro & Hs & Hrun & _)]%task_route_inv;
         [trivial|];
         eapply task_store_kept; [exact Hc | | exact Hrun];
         destruct Hc as (H & _); apply (H _ _ Hs)).
  - intros [= <- <-]. trivial.
  - rewrite bind_run, parse_run.
    destruct (validate_UserRegister validate_email body) as [e|user].
    { intros [= <- <-]. trivial. }
    rewrite bind_run, register_run.
    destruct (dict_get (ur_username user) (users_db st)).
    { intros [= <- <-]. trivial. }
    cbv zeta. intros [= <- <-].
    destruct Hc as (_ & _ & Hfresh & _).
    destruct (Hfresh (current_user_id st)) as [Hut Hct]; [lia|].
    unfold kept, scope, next_id. proj.
    destruct (decide (current_user_id st = u)) as [<-|Hne].
    + rewrite Hut. simpl. lia.
    + rewrite !lookup_insert_ne by exact Hne.
      destruct (dict_get id (default [] (user_todos st !! u))); [trivial | lia].
  - rewrite bind_run, parse_run.
    destruct (validate_UserLogin body) as [e|user].
    { intros [= <- <-]. trivial. }
    rewrite bind_run, login_run.
    destruct (dict_get (ul_username user) (users_db st)).
    2: { intros [= <- <-]. trivial. }
    case_bool_decide; intros [= <- <-]; trivial.
  - rewrite bind_run, logout_run. intros [= <- <-].
    destruct (sessions st !! credentials); trivial.
  - rewrite bind_run.
    destruct (get_current_user credentials st) as [[e|cu] st0] eqn:Eu;
      apply get_current_user_inv in Eu as [-> _].
    { intros [= <- <-]. trivial. }
    rewrite bind_run. unfold get_current_user_info. rewrite bind_run.
    unfold gets at 1. cbv iota beta.
    destruct (cu_username cu) as [n|]; [|intros [= <- <-]; trivial].
    destruct (dict_get n (users_db st)); intros [= <- <-]; trivial.
Qed.

Lemma serve_kept (trace : list (Env * Request)) (st : State)
    (u id : Z) (ca : str) :
  consistent st -> kept u id ca st -> kept u id ca (snd (serve trace st)).
Proof.
  revert st. induction trace as [|[env req] rest IH]; intros st Hc Hk;
    [exact Hk|].
  simpl. destruct (app env req st) as [r st1] eqn:E.
  specialize (IH st1 (app_consistent _ _ env req st st1 r Hc E)
                (app_kept env req st st1 r u id ca Hc E Hk)).
  destruct (serve rest st1). exact IH.
Qed.

(** C7. The creation time of a task never changes. In every run of the
    server, a task that is there at some point and is there under the same
    user and id at any later point has the creation time it had; Replace,
    PartialUpdate and Toggle, on any tables, keep every task there is with
    its creation time; and Replace on an existing task with a valid body
    answers with, and stores, the new field values under the creation time
    of the record it replaces. *)
Theorem created_at_never_changes :
  (forall (before after : list (Env * Request)) (u id : Z) (t t' : Todo),
      let st := snd (serve before initial_state) in
      let st' := snd (serve after st) in
      dict_get id (scope st u) = Some t ->
      dict_get id (scope st' u) = Some t' ->
      t_created_at t' = t_created_at t)
  /\ (forall (cu : CurrentUser) (c : Call) (st st' : State) r (w id : Z) (t : Todo),
        is_update c ->
        dict_get id (scope st w) = Some t ->
        task_store cu c st = (r, st') ->
        exists t', dict_get id (scope st' w) = Some t'
                   /\ t_created_at t' = t_created_at t)
  /\ (forall (cu : CurrentUser) (id : Z) (body : TodoJson) (todo : TodoBase)
             (old : Todo) (st : State),
        validate_TodoBase body = inr todo ->
        dict_get id (scope st (cu_id cu)) = Some old ->
        exists st',
          task_store cu (Replace id body) st
          = (inr (OTodo (updated_todo todo (cu_id cu) id old)), st')
          /\ dict_get id (scope st' (cu_id cu))
             = Some (updated_todo todo (cu_id cu) id old)
          /\ t_created_at (updated_todo todo (cu_id cu) id old)
             = t_created_at old).
Proof.
  split; [|split].
  - intros before after u id t t' st st' Hget Hget'.
    assert (Hc : consistent st) by apply serve_consistent, consistent_initial.
    assert (Hk : kept u id (t_created_at t) st).
    { unfold kept. rewrite Hget. reflexivity. }
    pose proof (serve_kept after st u id _ Hc Hk) as Hk'.
    unfold kept in Hk'. fold st' in Hk'. rewrite Hget' in Hk'. exact Hk'.
  - apply update_keeps_created_at.
  - intros cu id body todo old st Hval Hget.
    unfold task_store. rewrite bind_run, parse_run, Hval.
    rewrite bind_run, replace_todo_run, Hget. cbv zeta.
    eexists. split; [reflexivity|]. split; [|reflexivity].
    rewrite scope_commit_self. apply dict_get_set_eq.
Qed.
End CreationTimeFacts.

(** * Examples *)

(** Bob asks for task 1, an id Alice holds too: he gets his own. *)
Lemma users_are_isolated_witness :
  let r := fst (task_store bob (Get 1) sample_state) in
  let st' := snd (task_store bob (Get 1) sample_state) in
  (user_todos st' !! 1 = user_todos sample_state !! 1
   /\ current_todo_id st' !! 1 = current_todo_id sample_state !! 1)
  /\ (forall o t, r = inr o -> returned t o ->
        t_user_id t = 2 /\ t ∉ dict_values (scope sample_state 1))
  /\ fst (task_store bob (Get 1) (forget 1 sample_state)) = r
  /\ (forall id, target (Get 1) = Some id -> body_accepted (Get 1) ->
        dict_get id (scope sample_state 2) = None -> r = inl (NotFound id))
  /\ owned st'.
Proof.
  apply (users_are_isolated 1 2 bob (Get 1) sample_state).
  - lia.
  - reflexivity.
  - apply (bool_decide_unpack _). vm_compute. exact I.
  - vm_compute. reflexivity.
Defined.


(** Create on the sample tables: a blank title, priority 0, and priority 1. *)
Lemma create_boundaries_witness :
  (exists fields,
      task_store alice (Create (sample_body "   " Unset) (py "now")) sample_state
      = (inl (RequestValidationError fields), sample_state)
      /\ "title"%string ∈ fields)
  /\ (exists fields,
        task_store alice (Create (sample_body "Walk" (Val 0)) (py "now")) sample_state
        = (inl (RequestValidationError fields), sample_state)
        /\ "priority"%string ∈ fields)
  /\ (exists t st',
        task_store alice (Create (sample_body "Walk" (Val 1)) (py "now")) sample_state
        = (inr (OTodo t), st')
        /\ t_priority t = 1 /\ t_title t = strip (py "Walk")
        /\ t_id t = next_id sample_state (cu_id alice) /\ t_user_id t = cu_id alice
        /\ dict_get (t_id t) (scope st' (cu_id alice)) = Some t
        /\ respond (OTodo t) st' = (inr (TodoResponse t), st')).
Proof.
  split; [|split].
  - apply (proj1 (create_boundaries alice (sample_body "   " Unset) (py "now")
                    sample_state) (py "   ")); reflexivity.
  - apply (proj1 (proj2 (create_boundaries alice (sample_body "Walk" (Val 0))
                           (py "now") sample_state))).
    left. reflexivity.
  - apply (proj2 (proj2 (create_boundaries alice (sample_body "Walk" (Val 1))
                           (py "now") sample_state)) 1 (py "Walk")).
    + reflexivity.
    + left. reflexivity.
    + reflexivity.
    + reflexivity.
    + vm_compute. split; discriminate.
    + vm_compute. discriminate.
    + intros d H. discriminate H.
    + intros d H. discriminate H.
    + discriminate.
Defined.


(** Alice's task keeps its creation time through a replace, a partial update
    and a toggle. *)
Lemma created_at_never_changes_witness :
  (forall t',
      dict_get 1 (scope (snd (serve sample_digest sample_email rewrite_trace
                                sample_state)) 1) = Some t' ->
      t_created_at t' = t_created_at buy_milk)
  /\ (exists t',
        dict_get 1 (scope (snd (task_store alice (Toggle 1) sample_state)) 1)
        = Some t'
        /\ t_created_at t' = t_created_at buy_milk)
  /\ (exists st',
        task_store alice (Replace 1 (sample_body "Buy oat milk" (Val 5)))
          sample_state
        = (inr (OTodo (updated_todo
                         {| tb_title := py "Buy oat milk"; tb_description := None;
                            tb_due_date := None; tb_priority := 5;
                            tb_completed := false |} (cu_id alice) 1 buy_milk)), st')
        /\ dict_get 1 (scope st' (cu_id alice))
           = Some (updated_todo
                     {| tb_title := py "Buy oat milk"; tb_description := None;
                        tb_due_date := None; tb_priority := 5;
                        tb_completed := false |} (cu_id alice) 1 buy_milk)
        /\ t_created_at
             (updated_todo
                {| tb_title := py "Buy oat milk"; tb_description := None;
                   tb_due_date := None; tb_priority := 5;
                   tb_completed := false |} (cu_id alice) 1 buy_milk)
           = t_created_at buy_milk).
Proof.
  destruct (created_at_never_changes sample_digest sample_email)
    as (Hrun & Hupd & Hrep).
  split; [|split].
  - intros t'.
    apply (Hrun sample_trace rewrite_trace 1 1 buy_milk t').
    vm_compute. reflexivity.
  - apply (Hupd alice (Toggle 1) sample_state _
             (fst (task_store alice (Toggle 1) sample_state)) 1 1 buy_milk).
    + exact I.
    + vm_compute. reflexivity.
    + vm_compute. reflexivity.
  - apply (Hrep alice 1 (sample_body "Buy oat milk" (Val 5))).
    + vm_compute. reflexivity.
    + vm_compute. reflexivity.
Defined.

(** Alice toggles her task twice and logs out twice. *)
Lemma toggle_twice_logout_twice_witness :
  (exists st1 st2,
      task_store alice (Toggle 1) sample_state = (inr (OTodo (toggle buy_milk)), st1)
      /\ t_completed (toggle buy_milk) = negb (t_completed buy_milk)
      /\ dict_get 1 (scope st1 (cu_id alice)) = Some (toggle buy_milk)
      /\ task_store alice (Toggle 1) st1 = (inr (OTodo buy_milk), st2)
      /\ dict_get 1 (scope st2 (cu_id alice)) = Some buy_milk
      /\ user_todos st2 = user_todos sample_state)
  /\ (exists st1,
        logout (py "a1") sample_state = (inr "Logged out successfully"%string, st1)
        /\ sessions st1 = delete (py "a1") (sessions sample_state)
        /\ logout (py "a1") st1 = (inr "Logged out successfully"%string, st1)
        /\ (sessions sample_state !! py "a1" = None -> st1 = sample_state)).
Proof.
  split.
  - apply (proj1 toggle_twice_logout_twice alice 1 buy_milk sample_state).
    vm_compute. reflexivity.
  - apply (proj2 toggle_twice_logout_twice (py "a1") sample_state).
Defined.

(** A second registration of "alice" changes nothing. *)
Lemma register_duplicate_changes_nothing_witness :
  app sample_digest sample_email (sample_env "now" "a2")
    (POST_register (sample_auth "alice" "secret9")) sample_state
  = (inl (HTTPException 400 "Username already exists"), sample_state).
Proof.
  apply (proj2 (register_duplicate_changes_nothing sample_digest sample_email
                  (sample_env "now" "a2") (sample_auth "alice" "secret9")
                  sample_state)
           {| ur_username := py "alice"; ur_email := py "user@example.com";
              ur_password := py "secret9" |}).
  - reflexivity.
  - vm_compute. eexists. reflexivity.
Defined.

(** A five-character password is rejected. *)
Lemma register_rejects_short_password_witness :
  exists fields,
    app sample_digest sample_email (sample_env "now" "c1")
      (POST_register (sample_auth "carol" "12345")) sample_state
    = (inl (RequestValidationError fields), sample_state)
    /\ "password"%string ∈ fields.
Proof.
  apply (register_rejects_short_password sample_digest sample_email
           (sample_env "now" "c1") (sample_auth "carol" "12345") (py "12345")).
  - reflexivity.
  - vm_compute. reflexivity.
Defined.

(** * Further properties *)

(** ** More on dictionaries *)

Section PyDictOrder.
Context {K V : Type} `{EqDecision K}.
Implicit Types (d : dict K V) (k : K) (v : V).

Lemma dict_get_elem_of d k v : dict_get k d = Some v -> (k, v) ∈ d.
Proof.
  induction d as [|[k' v'] r IH]; simpl; [discriminate|].
  destruct (decide (k = k')) as [->|Hne].
  - intros [= ->]. apply list_elem_of_here.
  - intros H. apply list_elem_of_further, IH, H.
Qed.

Lemma dict_get_None d k : dict_get k d = None <-> k ∉ dict_keys d.
Proof.
  induction d as [|[k' v'] r IH]; simpl.
  - split; [intros _; apply not_elem_of_nil | reflexivity].
  - rewrite not_elem_of_cons. destruct (decide (k = k')) as [->|Hne].
    + split; [discriminate | intros [? _]; congruence].
    + rewrite IH. split; [auto | intros [_ ?]; assumption].
Qed.

(** With distinct keys, an entry of the dictionary is what its key gets. *)
Lemma dict_get_of_elem d k v :
  NoDup (dict_keys d) -> (k, v) ∈ d -> dict_get k d = Some v.
Proof.
  induction d as [|[k' v'] r IH]; simpl; intros Hnd Hin.
  - apply not_elem_of_nil in Hin. contradiction.
  - apply NoDup_cons in Hnd as [Hk Hnd].
    apply elem_of_cons in Hin as [[= -> ->]|Hin].
    + destruct (decide (k' = k')); congruence.
    + destruct (decide (k = k')) as [->|Hne]; [|apply IH; assumption].
      exfalso. apply Hk. unfold dict_keys.
      apply (list_elem_of_fmap_2 fst r (k', v)). exact Hin.
Qed.

(** Assigning to a key the dictionary lacks appends the entry. *)
Lemma dict_set_fresh d k v : dict_get k d = None -> dict_set k v d = d ++ [(k, v)].
Proof.
  induction d as [|[k' v'] r IH]; simpl; [reflexivity|].
  destruct (decide (k = k')); [discriminate|].
  intros H. rewrite (IH H). reflexivity.
Qed.

(** Assigning to a key the dictionary holds keeps the order of the keys. *)
Lemma dict_keys_set_present d k v :
  is_Some (dict_get k d) -> dict_keys (dict_set k v d) = dict_keys d.
Proof.
  induction d as [|[k' v'] r IH]; simpl.
  - intros [? H]. discriminate.
  - destruct (decide (k = k')) as [->|Hne]; [reflexivity|].
    intros H. unfold dict_keys in *. simpl. f_equal. apply IH, H.
Qed.

Lemma Forall_dict_set (P : K * V -> Prop) d k v :
  P (k, v) -> Forall P d -> Forall P (dict_set k v d).
Proof.
  intros HP. induction d as [|[k' v'] r IH]; simpl; intros Hd.
  - constructor; [exact HP | constructor].
  - apply Forall_cons in Hd as [H1 H2].
    destruct (decide (k = k')); constructor; auto.
Qed.

Lemma Forall_dict_del (P : K * V -> Prop) d k :
  Forall P d -> Forall P (dict_del k d).
Proof.
  induction d as [|[k' v'] r IH]; simpl; intros Hd; [constructor|].
  apply Forall_cons in Hd as [H1 H2].
  destruct (decide (k = k')); [auto | constructor; auto].
Qed.

Lemma dict_keys_del_elem d k k' : k' ∈ dict_keys (dict_del k d) -> k' ∈ dict_keys d.
Proof.
  induction d as [|[k0 v0] r IH]; simpl; [trivial|].
  destruct (decide (k = k0)); simpl; intros H.
  - apply list_elem_of_further, IH, H.
  - apply elem_of_cons in H as [->|H]; [apply list_elem_of_here|].
    apply list_elem_of_further, IH, H.
Qed.

Lemma dict_keys_del_sorted (R : K -> K -> Prop) d k :
  StronglySorted R (dict_keys d) -> StronglySorted R (dict_keys (dict_del k d)).
Proof.
  induction d as [|[k0 v0] r IH]; simpl; [trivial|].
  intros [Hall Hs]%StronglySorted_cons.
  destruct (decide (k = k0)); [auto|]. simpl.
  apply StronglySorted_cons. split; [|auto].
  rewrite Forall_forall in *. intros x Hx. apply Hall.
  apply (dict_keys_del_elem r k x Hx).
Qed.
End PyDictOrder.

(** ** Requests as steps *)

Section StepFacts.
Variable sha256_hexdigest : str -> str.
Variable validate_email : str -> option str.

Local Abbreviation app := (app sha256_hexdigest validate_email).
Local Abbreviation serve := (serve sha256_hexdigest validate_email).

Lemma app_step (env : Env) (req : Request) (st st' : State) r :
  app env req st = (r, st') -> step st st'.
Proof.
  destruct req; unfold app;
    try (intros [[-> _] | (cu & ro & Hs & Hrun & _)]%task_route_inv;
         [apply step_read | eapply step_task; eassumption]).
  - intros [= <- <-]. apply step_read.
  - rewrite bind_run, parse_run.
    destruct (validate_UserRegister validate_email body) as [e|user].
    { intros [= <- <-]. apply step_read. }
    rewrite bind_run, register_run.
    destruct (dict_get (ur_username user) (users_db st)) eqn:E.
    { intros [= <- <-]. apply step_read. }
    cbv zeta. intros [= <- <-].
    apply (step_register st
             {| u_id := current_user_id st; u_username := ur_username user;
                u_email := ur_email user;
                u_password := hash_password sha256_hexdigest (ur_password user);
                u_created_at := now_isoformat env |} (token_hex env));
      [exact E | reflexivity].
  - rewrite bind_run, parse_run.
    destruct (validate_UserLogin body) as [e|user].
    { intros [= <- <-]. apply step_read. }
    rewrite bind_run, login_run.
    destruct (dict_get (ul_username user) (users_db st)) eqn:E.
    2: { intros [= <- <-]. apply step_read. }
    case_bool_decide; intros [= <- <-]; [apply step_read|].
    eapply step_login. exact E.
  - rewrite bind_run, logout_run. intros [= <- <-].
    destruct (sessions st !! credentials); [apply step_logout | apply step_read].
  - rewrite bind_run.
    destruct (get_current_user credentials st) as [[e|cu] st0] eqn:Eu;
      apply get_current_user_inv in Eu as [-> _].
    { intros [= <- <-]. apply step_read. }
    rewrite bind_run. unfold get_current_user_info. rewrite bind_run.
    unfold gets at 1. cbv iota beta.
    destruct (cu_username cu) as [n|]; [|intros [= <- <-]; apply step_read].
    destruct (dict_get n (users_db st)); intros [= <- <-]; apply step_read.
Qed.

(** What every step preserves holds after every run. *)
Lemma serve_preserves (P : State -> Prop) :
  (forall st st', step st st' -> P st -> P st') ->
  forall trace st, P st -> P (snd (serve trace st)).
Proof.
  intros Hstep trace. induction trace as [|[env req] rest IH]; intros st HP;
    [exact HP|].
  simpl. destruct (app env req st) as [r st1] eqn:E.
  specialize (IH st1 (Hstep st st1 (app_step env req st st1 r E) HP)).
  destruct (serve rest st1). exact IH.
Qed.
End StepFacts.

(** ** The identity tables *)

Lemma ensure_current_todo_id_self (u : Z) (st : State) :
  current_todo_id (ensure u st) !! u = Some (next_id st u).
Proof.
  unfold next_id, ensure. proj.
  destruct (current_todo_id st !! u) eqn:Eu; simpl.
  - exact Eu.
  - apply lookup_insert_eq.
Qed.

(** The task store never drops a scope or a counter. *)
Lemma task_store_keys (cu : CurrentUser) (c : Call) (st st' : State) r (w : Z) :
  task_store cu c st = (r, st') ->
  (is_Some (user_todos st !! w) -> is_Some (user_todos st' !! w))
  /\ (is_Some (current_todo_id st !! w) -> is_Some (current_todo_id st' !! w)).
Proof.
  intros Hrun.
  destruct (decide (w = cu_id cu)) as [->|Hne].
  2: { destruct (task_store_frame cu c st st' r Hrun) as (Hframe & _).
       destruct (Hframe w Hne) as [-> ->]. auto. }
  revert Hrun. destruct c; run_store; intros [= <- <-]; (split; [|]); trivial;
    intros _; proj;
    rewrite ?current_todo_id_commit, ?lookup_insert_eq,
      ?ensure_current_todo_id_self, ?ensure_user_todos_self;
    try (eexists; reflexivity);
    unfold commit; proj; rewrite lookup_alter_eq, ensure_user_todos_self;
    eexists; reflexivity.
Qed.

Lemma registry_ok_initial : registry_ok initial_state.
Proof.
  unfold registry_ok, initial_state. proj. simpl.
  split; [constructor|]. split; [constructor|]. split; [reflexivity|].
  split; [lia|]. split.
  - intros tok uid H. rewrite lookup_empty in H. discriminate.
  - intros uid H. lia.
Qed.

Lemma step_registry_ok (st st' : State) :
  step st st' -> registry_ok st -> registry_ok st'.
Proof.
  intros Hstep Hreg.
  destruct Hstep as [st | st user_data token Hfree Huid
                     | st username stored token Hget | st token
                     | st st' cred cu c ro Hsess Hrun];
    [exact Hreg | ..]; destruct Hreg as (Hnd & Hkey & Hids & Hcur & Hs & Hsc).
  - unfold registry_ok, registered. proj.
    rewrite (dict_set_fresh _ _ user_data Hfree).
    split.
    { unfold dict_keys. rewrite map_app. simpl. apply NoDup_app. split; [exact Hnd|].
      split; [|apply NoDup_singleton].
      intros k Hk Hk'. apply list_elem_of_singleton in Hk'. subst k.
      apply dict_get_None in Hfree. contradiction. }
    split.
    { apply Forall_app. split; [exact Hkey|]. constructor; [reflexivity|constructor]. }
    split.
    { unfold dict_values. rewrite map_app, fmap_app. simpl.
      unfold dict_values in Hids. rewrite Hids, Huid.
      replace (current_user_id st + 1 - 1) with (current_user_id st - 1 + 1) by lia.
      rewrite seqZ_app by lia. f_equal.
      rewrite seqZ_cons by lia. rewrite seqZ_nil by lia. f_equal. lia. }
    split; [lia|]. split.
    { intros tok uid [[_ <-] | [_ H]]%lookup_insert_Some; [lia|].
      specialize (Hs tok uid H). lia. }
    intros uid Huid'.
    destruct (decide (current_user_id st = uid)) as [<-|Hne].
    + rewrite !lookup_insert_eq. split; eexists; reflexivity.
    + rewrite !lookup_insert_ne by exact Hne. apply Hsc. lia.
  - unfold registry_ok. proj.
    split; [exact Hnd|]. split; [exact Hkey|]. split; [exact Hids|].
    split; [exact Hcur|]. split; [|exact Hsc].
    intros tok uid [[_ <-] | [_ H]]%lookup_insert_Some; [|apply (Hs tok uid H)].
    assert (Hin : u_id stored ∈ u_id <$> dict_values (users_db st)).
    { apply list_elem_of_fmap_2. eapply dict_get_values, Hget. }
    rewrite Hids in Hin. apply elem_of_seqZ in Hin. lia.
  - unfold registry_ok. proj.
    split; [exact Hnd|]. split; [exact Hkey|]. split; [exact Hids|].
    split; [exact Hcur|]. split; [|exact Hsc].
    intros tok uid [_ H]%lookup_delete_Some. apply (Hs tok uid H).
  - destruct (task_store_frame cu c st st' ro Hrun) as (_ & Hdb & Hss & Hc).
    unfold registry_ok. rewrite Hdb, Hss, Hc.
    split; [exact Hnd|]. split; [exact Hkey|]. split; [exact Hids|].
    split; [exact Hcur|]. split; [exact Hs|].
    intros uid Huid. destruct (Hsc uid Huid) as [H1 H2].
    destruct (task_store_keys cu c st st' ro uid Hrun) as [K1 K2]. auto.
Qed.

(** ** The scopes *)

Lemma valid_task_bounded (t : Todo) : valid_task t -> bounded t.
Proof. intros (H1 & _ & H2 & H3). repeat split; auto; lia. Qed.

Lemma patch_field_checked {A} name (ok : A -> bool) (f g : field A) (a : A) :
  patch_field name ok f = inr g -> f = Val a -> ok a = true.
Proof. intros H ->. simpl in H. destruct (ok a); [reflexivity | discriminate]. Qed.

(** What [TodoUpdate] checks on the fields a patch sets. *)
Lemma validate_TodoUpdate_checks (patch : TodoJson) (upd : TodoUpdate) :
  validate_TodoUpdate patch = inr upd ->
  (forall v, j_title patch = Val v -> 1 <= len v <= 100)
  /\ (forall d, j_description patch = Val d -> len d <= 500)
  /\ (forall p, j_priority patch = Val p -> 1 <= p <= 5).
Proof.
  unfold validate_TodoUpdate. cbv zeta.
  destruct (as_str "title" (j_title patch) _) eqn:E1;
    destruct (as_str "description" (j_description patch) _) eqn:E2;
    destruct (as_str "due_date" (j_due_date patch) _) eqn:E3;
    destruct (patch_field "priority" (fun p => at_least 1 p && at_most 5 p)
                (j_priority patch)) eqn:E4;
    destruct (patch_field "completed" any_value (j_completed patch)) eqn:E5;
    try discriminate.
  apply as_str_inr in E1 as [E1 _], E2 as [E2 _].
  intros _. split; [|split].
  - intros v Hv. pose proof (patch_field_checked _ _ _ _ v E1 Hv) as H.
    unfold min_length, max_length in H. apply andb_true_iff in H as [H1 H2].
    apply Z.leb_le in H1, H2. lia.
  - intros d Hd. pose proof (patch_field_checked _ _ _ _ d E2 Hd) as H.
    unfold max_length in H. apply Z.leb_le in H. exact H.
  - intros p Hp. pose proof (patch_field_checked _ _ _ _ p E4 Hp) as H.
    unfold at_least, at_most in H. apply andb_true_iff in H as [H1 H2].
    apply Z.leb_le in H1, H2. lia.
Qed.

Lemma patched_bounded (patch : TodoJson) (upd : TodoUpdate) (t : Todo) :
  validate_TodoUpdate patch = inr upd -> bounded t ->
  bounded (patched_as_specified patch t).
Proof.
  intros Hval (Ht & Hd & Hp).
  apply validate_TodoUpdate_checks in Hval as (Ct & Cd & Cp).
  unfold bounded, patched_as_specified. simpl.
  split; [|split].
  - destruct (j_title patch) as [| |v]; auto.
  - intros d. destruct (j_description patch) as [| |v]; auto.
    intros [= <-]. auto.
  - destruct (j_priority patch) as [| |v]; auto.
Qed.

Lemma scope_ok_keys (u n : Z) (d : dict Z Todo) (k : Z) :
  scope_ok u n d -> k ∈ dict_keys d -> 1 <= k < n.
Proof.
  intros [_ Hall] Hk. unfold dict_keys in Hk.
  apply (list_elem_of_fmap fst) in Hk as ([k' t] & -> & Hin).
  rewrite Forall_forall in Hall. specialize (Hall _ Hin). simpl in *. lia.
Qed.

Lemma scope_ok_entry (u n : Z) (d : dict Z Todo) (k : Z) (t : Todo) :
  scope_ok u n d -> dict_get k d = Some t ->
  1 <= k < n /\ t_id t = k /\ t_user_id t = u /\ bounded t.
Proof.
  intros [_ Hall] Hget. rewrite Forall_forall in Hall.
  apply (Hall (k, t)), dict_get_elem_of, Hget.
Qed.

(** Assigning to a key the scope holds, a task that fits the key. *)
Lemma scope_ok_set (u n : Z) (d : dict Z Todo) (k : Z) (old t : Todo) :
  scope_ok u n d -> dict_get k d = Some old ->
  t_id t = k -> t_user_id t = u -> bounded t ->
  scope_ok u n (dict_set k t d).
Proof.
  intros Hok Hget Hid Hu Hb.
  destruct (scope_ok_entry u n d k old Hok Hget) as (Hk & _).
  destruct Hok as [Hs Hall]. split.
  - rewrite dict_keys_set_present by (eexists; exact Hget). exact Hs.
  - apply Forall_dict_set; [simpl | exact Hall].
    split; [exact Hk|]. split; [exact Hid|]. split; [exact Hu | exact Hb].
Qed.

Lemma scope_ok_del (u n : Z) (d : dict Z Todo) (k : Z) :
  scope_ok u n d -> scope_ok u n (dict_del k d).
Proof.
  intros [Hs Hall]. split.
  - apply dict_keys_del_sorted, Hs.
  - apply Forall_dict_del, Hall.
Qed.

(** Assigning to the counter's value appends, and the counter moves up. *)
Lemma scope_ok_append (u n : Z) (d : dict Z Todo) (t : Todo) :
  1 <= n -> scope_ok u n d ->
  t_id t = n -> t_user_id t = u -> bounded t ->
  dict_set n t d = d ++ [(n, t)] /\ scope_ok u (n + 1) (dict_set n t d).
Proof.
  intros Hn Hok Hid Hu Hb.
  assert (Hfree : dict_get n d = None).
  { apply dict_get_None. intros Hin.
    pose proof (scope_ok_keys u n d n Hok Hin). lia. }
  rewrite (dict_set_fresh d n t Hfree). split; [reflexivity|].
  pose proof (scope_ok_keys u n d) as Hkeys. destruct Hok as [Hs Hall]. split.
  - unfold dict_keys in *. rewrite map_app. simpl.
    apply StronglySorted_app. split; [|split].
    + intros x1 x2 H1 H2. apply list_elem_of_singleton in H2. subst x2.
      specialize (Hkeys x1 (conj Hs Hall) H1). lia.
    + exact Hs.
    + repeat constructor.
  - apply Forall_app. split.
    + eapply Forall_impl; [exact Hall|]. intros [k t'] H. simpl in *.
      destruct H as (Hk & Hi & Hw & Hbt).
      split; [lia|]. split; [exact Hi|]. split; [exact Hw | exact Hbt].
    + constructor; [|constructor]. simpl.
      split; [lia|]. split; [exact Hid|]. split; [exact Hu | exact Hb].
Qed.

Lemma task_store_scope_ok (cu : CurrentUser) (c : Call) (st st' : State) r :
  1 <= next_id st (cu_id cu) ->
  scope_ok (cu_id cu) (next_id st (cu_id cu)) (scope st (cu_id cu)) ->
  task_store cu c st = (r, st') ->
  1 <= next_id st' (cu_id cu)
  /\ scope_ok (cu_id cu) (next_id st' (cu_id cu)) (scope st' (cu_id cu)).
Proof.
  intros Hn Hok.
  destruct c; run_store; intros [= <- <-];
    rewrite ?ensure_scope, ?ensure_next_id; auto;
    try (rewrite scope_commit_self, next_id_commit; split; [exact Hn|]).
  - (* Create *)
    rewrite next_id_bump.
    change (scope (with_current_todo_id ?g ?s) ?u) with (scope s u).
    rewrite scope_commit_self. split; [lia|].
    apply scope_ok_append; auto.
    apply valid_task_bounded.
    eapply validated_fields_valid; [eassumption | reflexivity..].
  - (* Replace *)
    eapply scope_ok_set; [exact Hok | eassumption | reflexivity | reflexivity |].
    apply valid_task_bounded.
    eapply validated_fields_valid; [eassumption | reflexivity..].
  - (* PartialUpdate *)
    match goal with
    | Hv : validate_TodoUpdate ?p = inr ?upd, Hg : dict_get ?i _ = Some ?old |- _ =>
        rewrite (update_loop_as_specified p upd old Hv);
        destruct (scope_ok_entry _ _ _ _ _ Hok Hg) as (_ & Hid & Hu & Hb);
        eapply scope_ok_set; [exact Hok | exact Hg | exact Hid | exact Hu |];
        apply (patched_bounded p upd old Hv Hb)
    end.
  - (* Toggle *)
    match goal with
    | Hg : dict_get ?i _ = Some ?old |- _ =>
        destruct (scope_ok_entry _ _ _ _ _ Hok Hg) as (_ & Hid & Hu & Hb);
        eapply scope_ok_set; [exact Hok | exact Hg | exact Hid | exact Hu | exact Hb]
    end.
  - (* Delete *)
    apply scope_ok_del, Hok.
Qed.

Lemma scopes_ok_initial : scopes_ok initial_state.
Proof.
  intros u. unfold next_id, scope, initial_state. proj. rewrite !lookup_empty.
  simpl. split; [lia|]. split; constructor.
Qed.

Lemma step_scopes_ok (st st' : State) : step st st' -> scopes_ok st -> scopes_ok st'.
Proof.
  intros Hstep Hok.
  destruct Hstep as [st | st user_data token Hfree Huid
                     | st username stored token Hget | st token
                     | st st' cred cu c ro Hsess Hrun];
    [exact Hok | | exact Hok | exact Hok |].
  - intros u. unfold next_id, scope, registered. proj.
    destruct (decide (current_user_id st = u)) as [<-|Hne].
    + rewrite !lookup_insert_eq. simpl. split; [lia|]. split; constructor.
    + rewrite !lookup_insert_ne by exact Hne. apply Hok.
  - intros u. destruct (decide (u = cu_id cu)) as [->|Hne].
    + destruct (Hok (cu_id cu)) as [Hn Hs].
      apply (task_store_scope_ok cu c st st' ro Hn Hs Hrun).
    + destruct (task_store_frame cu c st st' ro Hrun) as (Hframe & _).
      destruct (Hframe u Hne) as [E1 E2].
      rewrite (scope_of_lookup _ _ _ E1), (next_id_of_lookup _ _ _ E2).
      apply Hok.
Qed.

(** ** Sessions and user records *)

Lemma dict_get_app_l {K V} `{EqDecision K} (d d' : dict K V) (k : K) (v : V) :
  dict_get k d = Some v -> dict_get k (d ++ d') = Some v.
Proof.
  induction d as [|[k' v'] r IH]; simpl; [discriminate|].
  destruct (decide (k = k')); auto.
Qed.

Lemma step_users_prefix (st st' : State) :
  step st st' -> users_db st `prefix_of` users_db st'.
Proof.
  intros [st0 | st0 user_data token Hfree Huid
          | st0 username stored token Hget | st0 token
          | st0 st1 cred cu c ro Hsess Hrun]; try reflexivity.
  - unfold registered. proj. rewrite (dict_set_fresh _ _ user_data Hfree).
    apply prefix_app_r. reflexivity.
  - destruct (task_store_frame cu c st0 st1 ro Hrun) as (_ & -> & _).
    reflexivity.
Qed.

(** A user id at or above the counter belongs to no stored record. *)
Lemma registry_ok_no_such_user (st : State) (uid : Z) :
  registry_ok st -> current_user_id st <= uid ->
  filter (fun u => u_id u = uid) (dict_values (users_db st)) = [].
Proof.
  intros (_ & _ & Hids & _) Hle.
  assert (H : Forall (fun u => u_id u ≠ uid) (dict_values (users_db st))).
  { rewrite Forall_forall. intros u Hu E.
    assert (Hin : u_id u ∈ u_id <$> dict_values (users_db st))
      by (apply list_elem_of_fmap_2; exact Hu).
    rewrite Hids in Hin. apply elem_of_seqZ in Hin. lia. }
  clear Hids Hle. revert H.
  generalize (dict_values (users_db st)). intros l.
  induction l as [|u l IH]; intros H; [reflexivity|].
  apply Forall_cons in H as [Hu Hl].
  rewrite filter_cons. destruct (decide (u_id u = uid)); [contradiction|].
  apply IH, Hl.
Qed.

(** Every session of consistent identity tables resolves to a stored
    record of the session's user. *)
Lemma registry_ok_resolves (st : State) (tok : str) (uid : Z) :
  registry_ok st -> sessions st !! tok = Some uid ->
  exists user,
    get_current_user tok st
    = (inr {| cu_id := uid; cu_username := Some (u_username user) |}, st)
    /\ dict_get (u_username user) (users_db st) = Some user
    /\ u_id user = uid.
Proof.
  intros (Hnd & Hkey & Hids & _ & Hs & _) Hsess.
  specialize (Hs tok uid Hsess).
  assert (Hin : uid ∈ u_id <$> dict_values (users_db st)).
  { rewrite Hids. apply elem_of_seqZ. lia. }
  assert (Hne : exists user l,
             filter (fun u => u_id u = uid) (dict_values (users_db st)) = user :: l).
  { apply list_elem_of_fmap in Hin as (u & Eu & Hu).
    destruct (filter (fun u => u_id u = uid) (dict_values (users_db st)))
      as [|user l] eqn:E; [|eauto].
    assert (Hf : u ∈ filter (fun u => u_id u = uid) (dict_values (users_db st)))
      by (apply list_elem_of_filter; split; [congruence | exact Hu]).
    rewrite E in Hf. apply not_elem_of_nil in Hf. contradiction. }
  destruct Hne as (user & l & Efilter).
  assert (Huser : user ∈ filter (fun u => u_id u = uid) (dict_values (users_db st)))
    by (rewrite Efilter; apply list_elem_of_here).
  apply list_elem_of_filter in Huser as [Hid Huser].
  exists user. split; [|split; [|exact Hid]].
  - rewrite get_current_user_run, Hsess.
    rewrite bool_decide_eq_true_2 by exact Hin. rewrite Efilter. reflexivity.
  - unfold dict_values in Huser.
    apply (list_elem_of_fmap snd) in Huser as ([k u'] & -> & Hku).
    rewrite Forall_forall in Hkey. pose proof (Hkey _ Hku) as Ek. simpl in *.
    rewrite Ek. apply dict_get_of_elem; assumption.
Qed.

Section IdentityRuns.
Variable sha256_hexdigest : str -> str.
Variable validate_email : str -> option str.

Local Abbreviation app := (app sha256_hexdigest validate_email).
Local Abbreviation serve := (serve sha256_hexdigest validate_email).
Local Abbreviation hash_password := (hash_password sha256_hexdigest).
Local Abbreviation validate_UserRegister := (validate_UserRegister validate_email).

Lemma serve_registry_ok (trace : list (Env * Request)) :
  registry_ok (snd (serve trace initial_state)).
Proof.
  apply (serve_preserves _ _ registry_ok step_registry_ok), registry_ok_initial.
Qed.

Lemma serve_users_prefix (trace : list (Env * Request)) (st : State) :
  users_db st `prefix_of` users_db (snd (serve trace st)).
Proof.
  apply (serve_preserves _ _ (fun s => users_db st `prefix_of` users_db s)).
  - intros s s' Hstep Hp. etransitivity; [exact Hp | apply step_users_prefix, Hstep].
  - reflexivity.
Qed.

(** X1. In every state the server can reach, a valid registration under a
    free username answers with the generated token as a bearer token and
    takes the next user id; afterwards that token resolves to the new id and
    username, and every further valid registration under the same username
    is answered with 400 "Username already exists", the tables unchanged. *)
Theorem register_then_resolve
    (trace : list (Env * Request)) (env : Env) (body : AuthJson)
    (user : UserRegister) :
  let st := snd (serve trace initial_state) in
  validate_UserRegister body = inr user ->
  dict_get (ur_username user) (users_db st) = None ->
  exists st',
    app env (POST_register body) st = (inr (Token (token_hex env) "bearer"), st')
    /\ current_user_id st' = current_user_id st + 1
    /\ get_current_user (token_hex env) st'
       = (inr {| cu_id := current_user_id st;
                 cu_username := Some (ur_username user) |}, st')
    /\ forall env2 body2 user2,
         validate_UserRegister body2 = inr user2 ->
         ur_username user2 = ur_username user ->
         app env2 (POST_register body2) st'
         = (inl (HTTPException 400 "Username already exists"), st').
Proof.
  intros st Hval Hfree.
  pose proof (serve_registry_ok trace) as Hreg. fold st in Hreg.
  eexists. split.
  { unfold app. rewrite bind_run, parse_run, Hval, bind_run, register_run, Hfree.
    reflexivity. }
  proj. split; [reflexivity|]. split.
  - rewrite get_current_user_run. proj. rewrite lookup_insert_eq.
    rewrite (dict_set_fresh _ _ _ Hfree).
    unfold dict_values. rewrite map_app. simpl map.
    rewrite bool_decide_eq_true_2.
    2: { rewrite fmap_app. apply elem_of_app. right. apply list_elem_of_here. }
    rewrite filter_app.
    pose proof (registry_ok_no_such_user st (current_user_id st) Hreg) as Hnone.
    unfold dict_values in Hnone. rewrite Hnone by lia.
    rewrite filter_cons. simpl.
    destruct (decide (current_user_id st = current_user_id st)); [|congruence].
    reflexivity.
  - intros env2 body2 user2 Hval2 Ename.
    unfold app. rewrite bind_run, parse_run, Hval2, bind_run, register_run.
    proj. rewrite Ename, dict_get_set_eq. reflexivity.
Qed.

(** X2. A login whose username is stored and whose password hashes to the
    stored digest answers with the generated token as a bearer token and
    binds it to the stored user's id. Every other token keeps the session it
    had, no other table changes, and the new token resolves to that id. *)
Theorem login_mints_session
    (env : Env) (body : AuthJson) (user : UserLogin) (stored_user : User)
    (st : State) :
  validate_UserLogin body = inr user ->
  dict_get (ul_username user) (users_db st) = Some stored_user ->
  u_password stored_user = hash_password (ul_password user) ->
  exists st',
    app env (POST_login body) st = (inr (Token (token_hex env) "bearer"), st')
    /\ sessions st' !! token_hex env = Some (u_id stored_user)
    /\ (forall tok, tok ≠ token_hex env -> sessions st' !! tok = sessions st !! tok)
    /\ users_db st' = users_db st /\ user_todos st' = user_todos st
    /\ current_user_id st' = current_user_id st
    /\ current_todo_id st' = current_todo_id st
    /\ exists cu, get_current_user (token_hex env) st' = (inr cu, st')
                  /\ cu_id cu = u_id stored_user.
Proof.
  intros Hval Hget Hpw. eexists. split.
  { unfold app. rewrite bind_run, parse_run, Hval, bind_run, login_run, Hget.
    rewrite bool_decide_eq_false_2 by (intros H; apply H, Hpw). reflexivity. }
  proj. split; [apply lookup_insert_eq|].
  split; [intros tok Hne; apply lookup_insert_ne; congruence|].
  repeat (split; [reflexivity|]).
  eexists. rewrite get_current_user_run. proj. rewrite lookup_insert_eq.
  rewrite bool_decide_eq_true_2.
  2: { apply list_elem_of_fmap_2. eapply dict_get_values, Hget. }
  split; reflexivity.
Qed.

(** X3. Once a registration has succeeded, a login with the username and
    password it was given succeeds after any further run of the server, and
    the session it creates belongs to the id the registration took. *)
Theorem registered_user_can_login
    (env : Env) (body : AuthJson) (st st1 : State) (r : Response)
    (username password : str) (trace : list (Env * Request)) (env2 : Env) :
  app env (POST_register body) st = (inr r, st1) ->
  j_username body = Val username -> j_password body = Val password ->
  let st2 := snd (serve trace st1) in
  exists st3,
    app env2 (POST_login {| j_username := Val username; j_email := Unset;
                            j_password := Val password |}) st2
    = (inr (Token (token_hex env2) "bearer"), st3)
    /\ sessions st3 !! token_hex env2 = Some (current_user_id st).
Proof.
  intros Hreg Hu Hp st2. revert Hreg.
  unfold app at 1. rewrite bind_run, parse_run.
  destruct (validate_UserRegister body) as [e|user] eqn:Hval; [discriminate|].
  assert (Euser : (ur_username user = username /\ ur_password user = password)
                  /\ is_unicode username = true /\ is_unicode password = true).
  { revert Hval. unfold validate_UserRegister. cbv zeta.
    destruct (as_str "username" (j_username body) _) eqn:E1;
      destruct (as_str "email" (j_email body) _) eqn:E2;
      destruct (as_str "password" (j_password body) _) eqn:E3;
      try discriminate.
    intros [= <-]. cbn [ur_username ur_password].
    apply as_str_inr in E1 as [E1 U1], E3 as [E3 U3].
    rewrite Hu in E1. rewrite Hp in E3. unfold required in E1, E3.
    destruct (min_length 3 username && max_length 50 username);
      destruct (min_length 6 password); try discriminate.
    injection E1 as ->. injection E3 as ->.
    split; [split; reflexivity|]. split; [apply U1, Hu | apply U3, Hp]. }
  destruct Euser as ([Eu Ep] & Uu & Up).
  rewrite bind_run, register_run.
  destruct (dict_get (ur_username user) (users_db st)) eqn:Hfree; [discriminate|].
  cbv zeta. intros [= _ <-].
  set (st1 := {| user_todos := _ |}) in *.
  set (user_data := {| u_id := current_user_id st;
                       u_username := ur_username user;
                       u_email := ur_email user;
                       u_password := hash_password (ur_password user);
                       u_created_at := now_isoformat env |}).
  assert (Hget2 : dict_get username (users_db st2) = Some user_data).
  { destruct (serve_users_prefix trace st1) as [rest Erest].
    fold st2 in Erest. rewrite Erest. apply dict_get_app_l.
    unfold st1. proj. rewrite <- Eu. apply dict_get_set_eq. }
  eexists. split.
  { assert (Hv : validate_UserLogin
                   {| j_username := Val username; j_email := Unset;
                      j_password := Val password |}
                 = inr {| ul_username := username; ul_password := password |}).
    { unfold validate_UserLogin. cbv zeta. cbn [j_username j_password].
      unfold as_str. rewrite Uu, Up. reflexivity. }
    unfold app. rewrite bind_run, parse_run, Hv, bind_run, login_run.
    cbn [ul_username ul_password]. rewrite Hget2.
    rewrite bool_decide_eq_false_2; [reflexivity|].
    unfold user_data. cbn [u_password]. rewrite Ep. intros H. apply H. reflexivity. }
  proj. apply lookup_insert_eq.
Qed.
End IdentityRuns.

Section IdentityInvariants.
Variable sha256_hexdigest : str -> str.
Variable validate_email : str -> option str.

Local Abbreviation app := (app sha256_hexdigest validate_email).
Local Abbreviation serve := (serve sha256_hexdigest validate_email).

(** X4. In every state the server can reach, the user ids of the stored
    records are 1, 2, 3, ... in order of registration, with the counter one
    above the last; no two records share a username; and every record is the
    one found under its own username. *)
Theorem user_ids_are_sequential (trace : list (Env * Request)) :
  let st := snd (serve trace initial_state) in
  u_id <$> dict_values (users_db st) = seqZ 1 (current_user_id st - 1)
  /\ NoDup (u_id <$> dict_values (users_db st))
  /\ NoDup (dict_keys (users_db st))
  /\ forall user, user ∈ dict_values (users_db st) ->
       dict_get (u_username user) (users_db st) = Some user.
Proof.
  intros st.
  destruct (serve_registry_ok sha256_hexdigest validate_email trace)
    as (Hnd & Hkey & Hids & _).
  fold st in Hnd, Hkey, Hids.
  split; [exact Hids|]. split; [rewrite Hids; apply NoDup_seqZ|].
  split; [exact Hnd|].
  intros user Hin. unfold dict_values in Hin.
  apply (list_elem_of_fmap snd) in Hin as ([k u'] & -> & Hku).
  rewrite Forall_forall in Hkey. pose proof (Hkey _ Hku) as Ek. simpl in *.
  rewrite Ek. apply dict_get_of_elem; assumption.
Qed.

(** X5. A stored user record is never changed or removed: what a username
    gets in some tables, it gets after every run of the server from them. *)
Theorem user_records_are_permanent
    (trace : list (Env * Request)) (st : State) (username : str) (user : User) :
  dict_get username (users_db st) = Some user ->
  dict_get username (users_db (snd (serve trace st))) = Some user.
Proof.
  intros Hget.
  destruct (serve_users_prefix sha256_hexdigest validate_email trace st)
    as [rest ->].
  apply dict_get_app_l, Hget.
Qed.

(** X6. In every state the server can reach, [GET /me] with a token that
    has a session succeeds and changes nothing: it answers with the id of
    the session and the username, email and creation time of the stored
    record that carries that id. The answers "User not found" and the
    uncaught [KeyError] cannot occur. *)
Theorem me_returns_profile
    (trace : list (Env * Request)) (env : Env) (tok : str) (uid : Z) :
  let st := snd (serve trace initial_state) in
  sessions st !! tok = Some uid ->
  exists user,
    app env (GET_me tok) st
    = (inr (UserInfo uid (u_username user) (u_email user) (u_created_at user)), st)
    /\ dict_get (u_username user) (users_db st) = Some user
    /\ u_id user = uid.
Proof.
  intros st Hsess.
  pose proof (serve_registry_ok sha256_hexdigest validate_email trace) as Hreg.
  fold st in Hreg.
  destruct (registry_ok_resolves st tok uid Hreg Hsess) as (user & Hres & Hget & Hid).
  exists user. split; [|split; assumption].
  unfold app. rewrite bind_run, Hres, bind_run.
  unfold get_current_user_info. rewrite bind_run. unfold gets at 1.
  cbv iota beta. cbn [cu_username]. rewrite Hget. subst uid. reflexivity.
Qed.

(** X8. A request that needs a session and carries bearer credentials (a
    non-empty token, as the [HTTPBearer] dependency hands on) without a
    session is answered with 401 "Invalid or expired token" and changes
    nothing, whatever its body and whatever task it addresses. *)
Theorem no_session_no_access
    (env : Env) (req : Request) (cred : str) (st : State) :
  protected req = Some cred ->
  cred ≠ [] ->
  sessions st !! cred = None ->
  app env req st = (inl (HTTPException 401 "Invalid or expired token"), st).
Proof.
  intros Hp _ Hs.
  destruct req; simpl in Hp; try discriminate; injection Hp as ->;
    unfold app, task_route; rewrite bind_run, get_current_user_run, Hs;
    reflexivity.
Qed.
End IdentityInvariants.

(** X7. After a logout the token no longer resolves: the authentication
    dependency answers 401 "Invalid or expired token" for it. Every other
    token resolves exactly as it did before. *)
Theorem logout_ends_session (tok : str) (st : State) :
  let st1 := snd (logout tok st) in
  get_current_user tok st1
  = (inl (HTTPException 401 "Invalid or expired token"), st1)
  /\ forall tok', tok' ≠ tok ->
       fst (get_current_user tok' st1) = fst (get_current_user tok' st).
Proof.
  cbv zeta. rewrite logout_run. cbn [snd].
  destruct (sessions st !! tok) as [uid|] eqn:E.
  - split.
    + rewrite get_current_user_run. proj. rewrite lookup_delete_eq. reflexivity.
    + intros tok' Hne. rewrite !get_current_user_run. proj.
      rewrite lookup_delete_ne by congruence.
      destruct (sessions st !! tok'); [case_bool_decide|]; reflexivity.
  - split; [|reflexivity].
    rewrite get_current_user_run, E. reflexivity.
Qed.

(** ** Operations of the task store *)

Lemma ensure_present (u : Z) (st : State) :
  is_Some (user_todos st !! u) -> is_Some (current_todo_id st !! u) ->
  ensure u st = st.
Proof.
  destruct st as [ut db ss cur ct]. unfold ensure. proj.
  intros [d ->] [n ->]. reflexivity.
Qed.

Lemma with_user_todos_same f (st : State) :
  f (user_todos st) = user_todos st -> with_user_todos f st = st.
Proof. destruct st. unfold with_user_todos. proj. intros ->. reflexivity. Qed.

(** Storing again the task a key holds leaves the tables as they are. *)
Lemma commit_same (u id : Z) (t : Todo) (st : State) :
  dict_get id (scope st u) = Some t -> is_Some (current_todo_id st !! u) ->
  commit u (dict_set id t) st = st.
Proof.
  intros Hget Hct. unfold commit.
  assert (Hut : is_Some (user_todos st !! u)).
  { unfold scope in Hget. destruct (user_todos st !! u); [eauto | discriminate]. }
  rewrite (ensure_present u st Hut Hct).
  apply with_user_todos_same, alter_id. intros d Hd.
  apply dict_set_same. unfold scope in Hget. rewrite Hd in Hget. exact Hget.
Qed.

Lemma current_todo_id_commit_self (u : Z) f (st : State) :
  is_Some (current_todo_id (commit u f st) !! u).
Proof. rewrite current_todo_id_commit, ensure_current_todo_id_self. eauto. Qed.

Lemma patched_idemp (patch : TodoJson) (t : Todo) :
  patched_as_specified patch (patched_as_specified patch t)
  = patched_as_specified patch t.
Proof.
  unfold patched_as_specified. simpl.
  destruct (j_title patch), (j_description patch), (j_due_date patch),
    (j_priority patch), (j_completed patch); reflexivity.
Qed.

Lemma create_inv (cu : CurrentUser) (body : TodoJson) (now : str)
    (st st' : State) (t : Todo) :
  task_store cu (Create body now) st = (inr (OTodo t), st') ->
  exists todo,
    validate_TodoBase body = inr todo
    /\ t = new_todo todo (cu_id cu) (next_id st (cu_id cu)) now
    /\ st' = with_current_todo_id <[cu_id cu := next_id st (cu_id cu) + 1]>
               (commit (cu_id cu) (dict_set (next_id st (cu_id cu)) t) st).
Proof. run_store; intros [= <- <-]. eauto. Qed.

Lemma replace_inv (cu : CurrentUser) (id : Z) (body : TodoJson)
    (st st' : State) (t : Todo) :
  task_store cu (Replace id body) st = (inr (OTodo t), st') ->
  exists todo old,
    validate_TodoBase body = inr todo
    /\ dict_get id (scope st (cu_id cu)) = Some old
    /\ t = updated_todo todo (cu_id cu) id old
    /\ st' = commit (cu_id cu) (dict_set id t) st.
Proof. run_store; intros [= <- <-]. eauto 10. Qed.

Lemma partial_update_inv (cu : CurrentUser) (id : Z) (patch : TodoJson)
    (st st' : State) (t : Todo) :
  task_store cu (PartialUpdate id patch) st = (inr (OTodo t), st') ->
  exists upd old,
    validate_TodoUpdate patch = inr upd
    /\ dict_get id (scope st (cu_id cu)) = Some old
    /\ t = patched_as_specified patch old
    /\ st' = commit (cu_id cu) (dict_set id t) st.
Proof.
  run_store; intros [= <- <-].
  match goal with
  | Hv : validate_TodoUpdate patch = inr ?upd, Hg : dict_get id _ = Some ?old |- _ =>
      rewrite (update_loop_as_specified patch upd old Hv); eauto 10
  end.
Qed.

(** X9. An operation of the task store that fails leaves every user's tasks
    and every counter as they were, and the identity tables too; when it
    fails because its body does not validate, the tables are untouched. *)
Theorem failed_operation_changes_no_task
    (cu : CurrentUser) (c : Call) (st st' : State) (e : Error) :
  task_store cu c st = (inl e, st') ->
  (forall w, scope st' w = scope st w /\ next_id st' w = next_id st w)
  /\ users_db st' = users_db st /\ sessions st' = sessions st
  /\ current_user_id st' = current_user_id st
  /\ (~ body_accepted c ->
      st' = st /\ exists fields, e = RequestValidationError fields).
Proof.
  intros Hrun.
  destruct (task_store_frame cu c st st' _ Hrun) as (_ & Hdb & Hss & Hcur).
  split; [|split; [exact Hdb | split; [exact Hss | split; [exact Hcur|]]]];
    revert Hrun; clear Hdb Hss Hcur;
    destruct c; simpl body_accepted; run_store; intros [= <- <-];
    try (intros w; rewrite ?ensure_scope, ?ensure_next_id; split; reflexivity);
    try (intros Hb; exfalso; apply Hb; exact I);
    intros _; eauto.
Qed.

(** X10. What Create answers with is what Get answers with for the new id,
    under the same identity, and it is among the tasks List answers with. *)
Theorem create_then_get
    (cu : CurrentUser) (body : TodoJson) (now : str) (st st' : State) (t : Todo) :
  task_store cu (Create body now) st = (inr (OTodo t), st') ->
  fst (task_store cu (Get (t_id t)) st') = inr (OTodo t)
  /\ exists ts, fst (task_store cu List st') = inr (OTodos ts) /\ t ∈ ts.
Proof.
  intros (todo & _ & Et & ->)%create_inv.
  set (st1 := with_current_todo_id _ _).
  assert (Hget : dict_get (t_id t) (scope st1 (cu_id cu)) = Some t).
  { unfold st1.
    change (scope (with_current_todo_id ?g ?s) ?u) with (scope s u).
    rewrite scope_commit_self. rewrite Et at 1. cbn [t_id new_todo].
    apply dict_get_set_eq. }
  split.
  - unfold task_store. rewrite bind_run, get_todo_run, Hget. reflexivity.
  - eexists. split.
    + unfold task_store. rewrite bind_run, list_todos_run. reflexivity.
    + eapply dict_get_values, Hget.
Qed.

(** X14. Delete on a task the user holds succeeds; afterwards Get and a
    second Delete of that id are answered with the 404 of a missing task,
    every other task of the user is as it was, and the counter has not
    moved. *)
Theorem delete_removes_the_task
    (cu : CurrentUser) (id : Z) (t : Todo) (st : State) :
  dict_get id (scope st (cu_id cu)) = Some t ->
  exists st',
    task_store cu (Delete id) st = (inr ODone, st')
    /\ fst (task_store cu (Get id) st') = inl (NotFound id)
    /\ fst (task_store cu (Delete id) st') = inl (NotFound id)
    /\ (forall id', id' ≠ id ->
          dict_get id' (scope st' (cu_id cu)) = dict_get id' (scope st (cu_id cu)))
    /\ next_id st' (cu_id cu) = next_id st (cu_id cu).
Proof.
  intros Hget. exists (commit (cu_id cu) (dict_del id) st).
  assert (Hgone : dict_get id (scope (commit (cu_id cu) (dict_del id) st) (cu_id cu))
                  = None)
    by (rewrite scope_commit_self; apply dict_get_del_eq).
  split; [|split; [|split; [|split]]].
  - unfold task_store. rewrite bind_run, delete_todo_run, Hget. reflexivity.
  - unfold task_store. rewrite bind_run, get_todo_run, Hgone. reflexivity.
  - unfold task_store. rewrite bind_run, delete_todo_run, Hgone. reflexivity.
  - intros id' Hne. rewrite scope_commit_self. apply dict_get_del_ne. congruence.
  - apply next_id_commit.
Qed.

(** X16. Replace and PartialUpdate are idempotent: when one of them has
    succeeded, running it again with the same body answers with the same
    task and leaves the tables exactly as the first run left them. *)
Theorem replace_and_patch_are_idempotent
    (cu : CurrentUser) (c : Call) (st st1 : State) (t : Todo) :
  match c with
  | Replace _ _ | PartialUpdate _ _ => True
  | _ => False
  end ->
  task_store cu c st = (inr (OTodo t), st1) ->
  task_store cu c st1 = (inr (OTodo t), st1).
Proof.
  intros Hc. destruct c as [| |?|id body|id patch|?|?]; try contradiction.
  - intros (todo & old & Hv & Hg & Et & ->)%replace_inv.
    assert (Hget1 : dict_get id (scope (commit (cu_id cu) (dict_set id t) st)
                                   (cu_id cu)) = Some t)
      by (rewrite scope_commit_self; apply dict_get_set_eq).
    unfold task_store.
    rewrite bind_run, parse_run, Hv, bind_run, replace_todo_run, Hget1.
    cbv zeta.
    replace (updated_todo todo (cu_id cu) id t) with t by (rewrite Et; reflexivity).
    rewrite (commit_same _ _ _ _ Hget1 (current_todo_id_commit_self _ _ _)).
    reflexivity.
  - intros (upd & old & Hv & Hg & Et & ->)%partial_update_inv.
    assert (Hget1 : dict_get id (scope (commit (cu_id cu) (dict_set id t) st)
                                   (cu_id cu)) = Some t)
      by (rewrite scope_commit_self; apply dict_get_set_eq).
    unfold task_store.
    rewrite bind_run, parse_run, Hv, bind_run, update_todo_run, Hget1.
    cbv zeta. rewrite (update_loop_as_specified patch upd t Hv).
    replace (patched_as_specified patch t) with t
      by (rewrite Et; symmetry; apply patched_idemp).
    rewrite (commit_same _ _ _ _ Hget1 (current_todo_id_commit_self _ _ _)).
    reflexivity.
Qed.

(** ** Scopes in the states the server reaches *)

Lemma scope_ok_ids (u n : Z) (d : dict Z Todo) :
  scope_ok u n d -> t_id <$> dict_values d = dict_keys d.
Proof.
  intros [_ Hall]. unfold dict_values, dict_keys.
  induction d as [|[k t] r IH]; [reflexivity|].
  apply Forall_cons in Hall as [(_ & Hid & _) Hr]. simpl in *.
  rewrite Hid. f_equal. apply IH, Hr.
Qed.

Section ScopeRuns.
Variable sha256_hexdigest : str -> str.
Variable validate_email : str -> option str.

Local Abbreviation app := (app sha256_hexdigest validate_email).
Local Abbreviation serve := (serve sha256_hexdigest validate_email).

Lemma serve_scopes_ok (trace : list (Env * Request)) :
  scopes_ok (snd (serve trace initial_state)).
Proof.
  apply (serve_preserves _ _ scopes_ok step_scopes_ok), scopes_ok_initial.
Qed.

(** X11. In every state the server can reach, List answers with the user's
    tasks in strictly increasing order of id, so no id occurs twice, and
    each of them is the task Get finds under its id. *)
Theorem list_is_in_id_order (trace : list (Env * Request)) (cu : CurrentUser) :
  let st := snd (serve trace initial_state) in
  exists ts,
    fst (task_store cu List st) = inr (OTodos ts)
    /\ StronglySorted Z.lt (t_id <$> ts)
    /\ forall t, t ∈ ts -> fst (task_store cu (Get (t_id t)) st) = inr (OTodo t).
Proof.
  intros st. destruct (serve_scopes_ok trace (cu_id cu)) as [_ Hok].
  fold st in Hok.
  exists (dict_values (scope st (cu_id cu))). split; [|split].
  - unfold task_store. rewrite bind_run, list_todos_run. reflexivity.
  - rewrite (scope_ok_ids _ _ _ Hok). apply Hok.
  - intros t Hin. unfold task_store. rewrite bind_run, get_todo_run.
    unfold dict_values in Hin.
    apply (list_elem_of_fmap snd) in Hin as ([k t'] & -> & Hkt).
    destruct Hok as [Hs Hall]. rewrite Forall_forall in Hall.
    destruct (Hall _ Hkt) as (_ & Hid & _). simpl in *. rewrite Hid.
    rewrite (dict_get_of_elem _ k t'); [reflexivity | | exact Hkt].
    clear -Hs. induction (dict_keys (scope st (cu_id cu))) as [|a l IH];
      [constructor|].
    apply StronglySorted_cons in Hs as [Hall Hs].
    constructor; [|apply IH, Hs].
    intros Hin. rewrite Forall_forall in Hall. specialize (Hall a Hin). lia.
Qed.

(** X12. In every state the server can reach, a Create that succeeds puts
    the new task at the end of what List answers with: the list afterwards
    is the list before followed by the new task. *)
Theorem create_appends_to_list
    (trace : list (Env * Request)) (cu : CurrentUser) (body : TodoJson)
    (now : str) (t : Todo) (st' : State) :
  let st := snd (serve trace initial_state) in
  task_store cu (Create body now) st = (inr (OTodo t), st') ->
  exists ts,
    fst (task_store cu List st) = inr (OTodos ts)
    /\ fst (task_store cu List st') = inr (OTodos (ts ++ [t])).
Proof.
  intros st (todo & Hv & Et & ->)%create_inv.
  destruct (serve_scopes_ok trace (cu_id cu)) as [Hn Hok].
  fold st in Hn, Hok.
  exists (dict_values (scope st (cu_id cu))). split.
  - unfold task_store. rewrite bind_run, list_todos_run. reflexivity.
  - unfold task_store. rewrite bind_run, list_todos_run. cbn [fst].
    change (scope (with_current_todo_id ?g ?s) ?u) with (scope s u).
    rewrite scope_commit_self.
    destruct (scope_ok_append (cu_id cu) _ _ t Hn Hok) as [-> _].
    + rewrite Et. reflexivity.
    + rewrite Et. reflexivity.
    + apply valid_task_bounded.
      apply (validated_fields_valid body todo); [exact Hv | rewrite Et; reflexivity..].
    + unfold dict_values. rewrite map_app. reflexivity.
Qed.

(** X13. In every state the server can reach, every stored task carries
    the id it is stored under and the id of the user whose scope holds it;
    the id lies from 1 to below the user's counter; the title has 1 to 100
    characters, a description at most 500, and the priority is from 1 to
    5. *)
Theorem stored_tasks_are_bounded
    (trace : list (Env * Request)) (u id : Z) (t : Todo) :
  let st := snd (serve trace initial_state) in
  dict_get id (scope st u) = Some t ->
  1 <= id < next_id st u /\ t_id t = id /\ t_user_id t = u
  /\ 1 <= len (t_title t) <= 100
  /\ (forall d, t_description t = Some d -> len d <= 500)
  /\ 1 <= t_priority t <= 5.
Proof.
  intros st Hget. destruct (serve_scopes_ok trace u) as [_ Hok]. fold st in Hok.
  destruct (scope_ok_entry u _ _ id t Hok Hget) as (Hk & Hid & Hu & Ht & Hd & Hp).
  auto 10.
Qed.

(** X15. In every state the server can reach, the GET requests change
    nothing: the health probe, the profile, the list and the lookup of one
    task leave all tables as they are, whatever they answer. *)
Theorem get_requests_change_nothing
    (trace : list (Env * Request)) (env : Env) (req : Request) (st' : State) r :
  let st := snd (serve trace initial_state) in
  is_get req -> app env req st = (r, st') -> st' = st.
Proof.
  intros st Hget.
  pose proof (serve_registry_ok sha256_hexdigest validate_email trace) as Hreg.
  fold st in Hreg.
  assert (Hens : forall cred cu, sessions st !! cred = Some (cu_id cu) ->
                                 ensure (cu_id cu) st = st).
  { intros cred cu Hs. destruct Hreg as (_ & _ & _ & _ & Hsess & Hsc).
    destruct (Hsc (cu_id cu) (Hsess cred _ Hs)) as [H1 H2].
    apply ensure_present; assumption. }
  destruct req; try contradiction; unfold app.
  - intros [= _ <-]. reflexivity.
  - rewrite bind_run.
    destruct (get_current_user credentials st) as [[e|cu] st0] eqn:Eu;
      apply get_current_user_inv in Eu as [-> _].
    { intros [= _ <-]. reflexivity. }
    rewrite bind_run. unfold get_current_user_info. rewrite bind_run.
    unfold gets at 1. cbv iota beta.
    destruct (cu_username cu) as [n|]; [|intros [= _ <-]; reflexivity].
    destruct (dict_get n (users_db st)); intros [= _ <-]; reflexivity.
  - intros [[-> _] | (cu & ro & Hs & Hrun & _)]%task_route_inv; [reflexivity|].
    revert Hrun. unfold task_store. rewrite bind_run, list_todos_run.
    intros [= _ <-]. apply (Hens credentials cu Hs).
  - intros [[-> _] | (cu & ro & Hs & Hrun & _)]%task_route_inv; [reflexivity|].
    revert Hrun. unfold task_store. rewrite bind_run, get_todo_run.
    destruct (dict_get todo_id (scope st (cu_id cu))); intros [= _ <-];
      apply (Hens credentials cu Hs).
Qed.
End ScopeRuns.

(** ** Trimming *)

Lemma forallb_rev {A} (f : A -> bool) (l : list A) :
  forallb f (rev l) = forallb f l.
Proof.
  induction l as [|a l IH]; [reflexivity|]. simpl.
  rewrite forallb_app, IH. simpl. rewrite andb_true_r. apply andb_comm.
Qed.

(** [lstrip] removes a run of whitespace from the front, and nothing else. *)
Lemma lstrip_split (s : str) :
  exists l, s = l ++ lstrip s /\ forallb isspace l = true.
Proof.
  induction s as [|c r (l & E & Hl)]; [exists []; auto|]. simpl.
  destruct (isspace c) eqn:Ec.
  - exists (c :: l). simpl. rewrite Ec, Hl. split; [f_equal; exact E | reflexivity].
  - exists []. auto.
Qed.

Lemma lstrip_head (s : str) (c : N) (r : str) :
  lstrip s = c :: r -> isspace c = false.
Proof.
  induction s as [|a s IH]; simpl; [discriminate|].
  destruct (isspace a) eqn:E; [exact IH|]. intros [= <- _]. exact E.
Qed.

Lemma rstrip_split (s : str) :
  exists r, s = rstrip s ++ r /\ forallb isspace r = true.
Proof.
  destruct (lstrip_split (rev s)) as (l & E & Hl).
  exists (rev l). split.
  - rewrite <- (rev_involutive s) at 1. rewrite E at 1.
    rewrite rev_app_distr. reflexivity.
  - rewrite forallb_rev. exact Hl.
Qed.

Lemma rstrip_last (s t : str) (c : N) :
  rstrip s = t ++ [c] -> isspace c = false.
Proof.
  unfold rstrip. intros H.
  apply (f_equal (@rev N)) in H. rewrite rev_involutive, rev_app_distr in H.
  simpl in H. apply (lstrip_head _ _ _ H).
Qed.

(** X17. [validate_title] rejects exactly the titles that consist of
    whitespace only (the empty title among them). A title it accepts comes
    back with a run of whitespace removed at each end and nothing else
    changed, and what comes back begins and ends with a character that is
    not whitespace. *)
Theorem validate_title_trims (v : str) :
  (forallb isspace v = true <-> validate_title v = inl "title"%string)
  /\ forall t, validate_title v = inr t ->
       (exists l r, v = l ++ t ++ r
                    /\ forallb isspace l = true /\ forallb isspace r = true)
       /\ (exists c t', t = c :: t' /\ isspace c = false)
       /\ (exists t' c, t = t' ++ [c] /\ isspace c = false).
Proof.
  destruct (lstrip_split v) as (l & El & Hl).
  destruct (rstrip_split (lstrip v)) as (r & Er & Hr).
  fold (strip v) in Er.
  unfold validate_title. cbv zeta. split.
  - split.
    + intros H. rewrite (strip_whitespace v H). reflexivity.
    + destruct (strip v) eqn:E; [intros _ | discriminate].
      rewrite El, Er. simpl. rewrite forallb_app, Hl, Hr. reflexivity.
  - intros t Ht. destruct (strip v) as [|c t'] eqn:E; [discriminate|].
    injection Ht as <-. split; [|split].
    + exists l, r. rewrite <- Er. auto.
    + exists c, t'. split; [reflexivity|].
      apply (lstrip_head v c (t' ++ r)). rewrite Er. reflexivity.
    + destruct (exists_last (l:=c :: t')) as (t'' & c' & E'); [discriminate|].
      exists t'', c'. split; [exact E'|].
      apply (rstrip_last (lstrip v) t'' c'). fold (strip v). congruence.
Qed.

(** ** The response model of the list route *)



Section ListRoute.
Variable sha256_hexdigest : str -> str.
Variable validate_email : str -> option str.

Local Abbreviation app := (app sha256_hexdigest validate_email).
Local Abbreviation serve := (serve sha256_hexdigest validate_email).

End ListRoute.

(** * More examples *)

(** Carol registers on the sample tables and becomes user 3. *)
Lemma register_then_resolve_witness :
  exists st',
    app sample_digest sample_email (sample_env "now" "c1")
      (POST_register (sample_auth "carol" "secret3")) sample_state
    = (inr (Token (py "c1") "bearer"), st')
    /\ get_current_user (py "c1") st'
       = (inr {| cu_id := 3; cu_username := Some (py "carol") |}, st').
Proof.
  destruct (register_then_resolve sample_digest sample_email sample_trace
              (sample_env "now" "c1") (sample_auth "carol" "secret3")
              carol_register)
    as (st' & H1 & _ & H2 & _).
  - reflexivity.
  - vm_compute. reflexivity.
  - exists st'. split; [exact H1 | exact H2].
Defined.

(** Alice logs in with her password; her first session stays. *)
Lemma login_mints_session_witness :
  exists st',
    app sample_digest sample_email (sample_env "now" "a2")
      (POST_login (sample_auth "alice" "secret1")) sample_state
    = (inr (Token (py "a2") "bearer"), st')
    /\ sessions st' !! py "a2" = Some 1
    /\ sessions st' !! py "a1" = sessions sample_state !! py "a1".
Proof.
  destruct (login_mints_session sample_digest sample_email
              (sample_env "now" "a2") (sample_auth "alice" "secret1")
              {| ul_username := py "alice"; ul_password := py "secret1" |}
              alice_record sample_state)
    as (st' & H1 & H2 & H3 & _).
  - reflexivity.
  - vm_compute. reflexivity.
  - vm_compute. reflexivity.
  - exists st'. split; [exact H1|]. split; [exact H2|].
    apply H3. vm_compute. discriminate.
Defined.

(** Carol registers, the sample requests are served, and she logs in. *)
Lemma registered_user_can_login_witness :
  exists st1 st3,
    app sample_digest sample_email (sample_env "now" "c1")
      (POST_register (sample_auth "carol" "secret3")) initial_state
    = (inr (Token (py "c1") "bearer"), st1)
    /\ app sample_digest sample_email (sample_env "now" "c2")
         (POST_login {| j_username := Val (py "carol"); j_email := Unset;
                        j_password := Val (py "secret3") |})
         (snd (serve sample_digest sample_email sample_trace st1))
       = (inr (Token (py "c2") "bearer"), st3)
    /\ sessions st3 !! py "c2" = Some 1.
Proof.
  eexists. 
  destruct (registered_user_can_login sample_digest sample_email
              (sample_env "now" "c1") (sample_auth "carol" "secret3")
              initial_state
              (snd (app sample_digest sample_email (sample_env "now" "c1")
                      (POST_register (sample_auth "carol" "secret3")) initial_state))
              (Token (py "c1") "bearer")
              (py "carol") (py "secret3") sample_trace (sample_env "now" "c2"))
    as (st3 & H1 & H2).
  - vm_compute. reflexivity.
  - reflexivity.
  - reflexivity.
  - exists st3. split; [vm_compute; reflexivity|]. split; [exact H1 | exact H2].
Defined.

(** The sample tables hold users 1 and 2. *)
Lemma user_ids_are_sequential_witness :
  u_id <$> dict_values (users_db sample_state) = [1; 2]
  /\ dict_get (py "alice") (users_db sample_state) = Some alice_record.
Proof.
  destruct (user_ids_are_sequential sample_digest sample_email sample_trace)
    as (H1 & _ & _ & H4).
  unfold sample_state. split.
  - rewrite H1. vm_compute. reflexivity.
  - apply (H4 alice_record). vm_compute. apply list_elem_of_here.
Defined.

(** Alice's record survives the rewriting of her task. *)
Lemma user_records_are_permanent_witness :
  dict_get (py "alice")
    (users_db (snd (serve sample_digest sample_email rewrite_trace sample_state)))
  = Some alice_record.
Proof.
  apply (user_records_are_permanent sample_digest sample_email rewrite_trace
           sample_state (py "alice") alice_record).
  vm_compute. reflexivity.
Defined.

(** Bob asks for his profile. *)
Lemma me_returns_profile_witness :
  exists user,
    app sample_digest sample_email (sample_env "now" "") (GET_me (py "b1"))
      sample_state
    = (inr (UserInfo 2 (u_username user) (u_email user) (u_created_at user)),
       sample_state)
    /\ dict_get (u_username user) (users_db sample_state) = Some user
    /\ u_id user = 2.
Proof.
  apply (me_returns_profile sample_digest sample_email sample_trace
           (sample_env "now" "") (py "b1") 2).
  vm_compute. reflexivity.
Defined.

(** After Alice's logout her token is refused and Bob's still resolves. *)
Lemma logout_ends_session_witness :
  get_current_user (py "a1") (snd (logout (py "a1") sample_state))
  = (inl (HTTPException 401 "Invalid or expired token"),
     snd (logout (py "a1") sample_state))
  /\ fst (get_current_user (py "b1") (snd (logout (py "a1") sample_state)))
     = fst (get_current_user (py "b1") sample_state).
Proof.
  destruct (logout_ends_session (py "a1") sample_state) as [H1 H2].
  split; [exact H1|]. apply H2. vm_compute. discriminate.
Defined.

(** A delete with a token nobody holds is refused. *)
Lemma no_session_no_access_witness :
  app sample_digest sample_email (sample_env "now" "")
    (DELETE_todo (py "nobody") 1) sample_state
  = (inl (HTTPException 401 "Invalid or expired token"), sample_state).
Proof.
  apply (no_session_no_access sample_digest sample_email (sample_env "now" "")
           (DELETE_todo (py "nobody") 1) (py "nobody") sample_state).
  - reflexivity.
  - discriminate.
  - vm_compute. reflexivity.
Defined.

(** A replace with priority 9 fails and changes nothing. *)
Lemma failed_operation_changes_no_task_witness :
  snd (task_store alice (Replace 1 (sample_body "Buy milk" (Val 9))) sample_state)
  = sample_state.
Proof.
  destruct (failed_operation_changes_no_task alice
              (Replace 1 (sample_body "Buy milk" (Val 9))) sample_state
              (snd (task_store alice (Replace 1 (sample_body "Buy milk" (Val 9)))
                      sample_state))
              (RequestValidationError ["priority"%string]))
    as (_ & _ & _ & _ & H).
  - vm_compute. reflexivity.
  - destruct H as [H _]; [|exact H]. vm_compute. intros H. exact H.
Defined.

(** Alice creates a second task and gets it back. *)
Lemma create_then_get_witness :
  let r := task_store alice (Create (sample_body "Walk" Unset) (py "now")) sample_state in
  exists t, fst r = inr (OTodo t)
            /\ fst (task_store alice (Get (t_id t)) (snd r)) = inr (OTodo t).
Proof.
  pose proof (create_then_get alice (sample_body "Walk" Unset) (py "now")
                sample_state) as H.
  eexists. split; [vm_compute; reflexivity|].
  apply H. vm_compute. reflexivity.
Defined.

(** Alice deletes her task. *)
Lemma delete_removes_the_task_witness :
  exists st',
    task_store alice (Delete 1) sample_state = (inr ODone, st')
    /\ fst (task_store alice (Get 1) st') = inl (NotFound 1)
    /\ next_id st' 1 = 2.
Proof.
  destruct (delete_removes_the_task alice 1 buy_milk sample_state)
    as (st' & H1 & H2 & _ & _ & H5).
  - vm_compute. reflexivity.
  - exists st'. split; [exact H1|]. split; [exact H2|].
    transitivity (next_id sample_state (cu_id alice));
      [exact H5 | vm_compute; reflexivity].
Defined.

(** Alice replaces her task twice with the same body. *)
Lemma replace_and_patch_are_idempotent_witness :
  let r := task_store alice (Replace 1 (sample_body "Buy oat milk" (Val 5)))
             sample_state in
  exists t, fst r = inr (OTodo t)
            /\ task_store alice (Replace 1 (sample_body "Buy oat milk" (Val 5)))
                 (snd r)
               = (inr (OTodo t), snd r).
Proof.
  eexists. split; [vm_compute; reflexivity|].
  apply (replace_and_patch_are_idempotent alice
           (Replace 1 (sample_body "Buy oat milk" (Val 5))) sample_state).
  - exact I.
  - vm_compute. reflexivity.
Defined.

(** Alice's list on the sample tables holds her one task, which Get finds. *)
Lemma list_is_in_id_order_witness :
  exists ts,
    fst (task_store alice List sample_state) = inr (OTodos ts)
    /\ StronglySorted Z.lt (t_id <$> ts)
    /\ (buy_milk ∈ ts ->
        fst (task_store alice (Get (t_id buy_milk)) sample_state)
        = inr (OTodo buy_milk)).
Proof.
  destruct (list_is_in_id_order sample_digest sample_email sample_trace alice)
    as (ts & H1 & H2 & H3).
  exists ts. split; [exact H1|]. split; [exact H2|].
  intros Hin. apply (H3 buy_milk Hin).
Defined.

(** Alice's second task goes to the end of her list. *)
Lemma create_appends_to_list_witness :
  let r := task_store alice (Create (sample_body "Walk" Unset) (py "now"))
             sample_state in
  exists t ts,
    fst r = inr (OTodo t)
    /\ fst (task_store alice List sample_state) = inr (OTodos ts)
    /\ fst (task_store alice List (snd r)) = inr (OTodos (ts ++ [t])).
Proof.
  pose proof (create_appends_to_list sample_digest sample_email sample_trace
                alice (sample_body "Walk" Unset) (py "now")) as H.
  eexists. 
  destruct (H (new_todo {| tb_title := py "Walk"; tb_description := None;
                           tb_due_date := None; tb_priority := 3;
                           tb_completed := false |} 1 2 (py "now"))
              (snd (task_store alice (Create (sample_body "Walk" Unset) (py "now"))
                      sample_state)))
    as (ts & H1 & H2).
  - vm_compute. reflexivity.
  - exists ts. split; [vm_compute; reflexivity|]. split; [exact H1 | exact H2].
Defined.

(** Alice's task on the sample tables is within the bounds. *)
Lemma stored_tasks_are_bounded_witness :
  1 <= 1 < next_id sample_state 1 /\ t_id buy_milk = 1 /\ t_user_id buy_milk = 1
  /\ 1 <= len (t_title buy_milk) <= 100
  /\ (forall d, t_description buy_milk = Some d -> len d <= 500)
  /\ 1 <= t_priority buy_milk <= 5.
Proof.
  apply (stored_tasks_are_bounded sample_digest sample_email sample_trace
           1 1 buy_milk).
  vm_compute. reflexivity.
Defined.

(** Bob lists his tasks; the tables stay as they are. *)
Lemma get_requests_change_nothing_witness :
  snd (app sample_digest sample_email (sample_env "now" "")
         (GET_todos (py "b1")) sample_state)
  = sample_state.
Proof.
  apply (get_requests_change_nothing sample_digest sample_email sample_trace
           (sample_env "now" "") (GET_todos (py "b1")) _
           (fst (app sample_digest sample_email (sample_env "now" "")
                   (GET_todos (py "b1")) sample_state))).
  - exact I.
  - vm_compute. reflexivity.
Defined.

(** The title "  Buy milk " comes back as "Buy milk"; three spaces are
    rejected. *)
Lemma validate_title_trims_witness :
  validate_title (py "   ") = inl "title"%string
  /\ exists l r, py "  Buy milk " = l ++ py "Buy milk" ++ r
                 /\ forallb isspace l = true /\ forallb isspace r = true.
Proof.
  split.
  - apply (proj1 (validate_title_trims (py "   "))). reflexivity.
  - apply (proj2 (validate_title_trims (py "  Buy milk ")) (py "Buy milk")).
    reflexivity.
Defined.

